(** * Task_Glitch: the task store of [src/hooks/useTasks.ts]

    A shallow embedding of the [useTasks] hook: the normalisation of the raw
    records fetched at start-up ([normalizeTasks]), the keep-first
    deduplication of the secondary load, and the five store operations
    ([addTask], [updateTask], [deleteTask], [undoDelete],
    [clearLastDeleted]) as transitions of the pair (collection, undo slot),
    [undoDelete] with the [lastDeleted] its render captured, the calls
    grouped in ticks between two renders,
    and the two loads: the primary one with its [fetchedRef] guard and
    [isMounted] flag, and the secondary one around the deduplication.

    JavaScript values are modelled as the program meets them: numbers are
    IEEE-754 values ([spec_float], so [NaN] and the two zeros are there),
    raw JSON is an untyped tree, [===], truthiness, [??] and the
    [SameValueZero] test of [Set] are written out.  What the host provides
    and the hook only calls (string-to-number conversion, date parsing and
    printing) is a record [Host] the definitions take as an argument. *)

From Stdlib Require Import List String Ascii ZArith Bool Lia.
From Stdlib Require Import Floats.SpecFloat.
From Stdlib Require Import Permutation.
From Stdlib Require DecimalString.
Import ListNotations.

(* ================================================================== *)
(** ** JavaScript values *)

Set Warnings "-register-all".

Module Js.

(** A number: binary64, without NaN payloads. *)
Definition num := spec_float.

Definition NaN : num := S754_nan.
Definition zero : num := S754_zero false.
(** [1] in canonical binary64 form: 2^52 * 2^-52. *)
Definition one : num := S754_finite false 4503599627370496 (-52).

(** [x > y] and [x <= y]; both are [false] as soon as one side is [NaN]. *)
Definition gt (x y : num) : bool := SFltb y x.
Definition le (x y : num) : bool := SFleb x y.

Definition is_nan (x : num) : bool :=
  match x with S754_nan => true | _ => false end.

(** Values.  Arrays and objects carry the address they were allocated at:
    [===] and [Set] compare objects by identity, not by content. *)
Inductive val : Type :=
| Undefined
| Null
| Bool (b : bool)
| Num (n : num)
| Str (s : string)
| Arr (addr : positive) (items : list val)
| Obj (addr : positive) (props : list (string * val)).

(** ToBoolean. *)
Definition truthy (v : val) : bool :=
  match v with
  | Undefined | Null => false
  | Bool b => b
  | Num (S754_zero _) | Num S754_nan => false
  | Num _ => true
  | Str EmptyString => false
  | Str _ => true
  | Arr _ _ | Obj _ _ => true
  end.

(** [a === b]. *)
Definition strict_eq (a b : val) : bool :=
  match a, b with
  | Undefined, Undefined | Null, Null => true
  | Bool x, Bool y => Bool.eqb x y
  | Num x, Num y => SFeqb x y
  | Str x, Str y => String.eqb x y
  | Arr p _, Arr q _ | Obj p _, Obj q _ => Pos.eqb p q
  | _, _ => false
  end.

(** SameValueZero, the membership test of [Set]: [===] but for
    [NaN], which it finds equal to itself. *)
Definition same_value_zero (a b : val) : bool :=
  match a, b with
  | Num S754_nan, Num S754_nan => true
  | _, _ => strict_eq a b
  end.

(** [undefined] and [null]: the values with no properties to read. *)
Definition nullish (v : val) : bool :=
  match v with Undefined | Null => true | _ => false end.

(** [x ?? d] on a value that is either nullish ([None]) or not. *)
Definition nullish_or {A : Type} (x : option A) (d : A) : A :=
  match x with Some a => a | None => d end.

(** [x ?? y] between two values either of which may be [undefined]
    ([None]). *)
Definition coalesce {A : Type} (x y : option A) : option A :=
  match x with Some a => Some a | None => y end.

(** [o.k] where the object [o] may lack the key [k] ([None]) or have it
    with the value [undefined] ([Some None]): [undefined] in both cases. *)
Definition read {A : Type} (field : option (option A)) : option A :=
  match field with Some v => v | None => None end.

(** [x <= y] and [x > y] where [x] is a number or [undefined];
    [undefined] converts to NaN and both comparisons are [false]. *)
Definition le_u (x : option num) (y : num) : bool :=
  match x with Some n => le n y | None => false end.
Definition gt_u (x : option num) (y : num) : bool :=
  match x with Some n => gt n y | None => false end.

(** A number or [undefined], as a value. *)
Definition of_num (x : option num) : val :=
  match x with Some n => Num n | None => Undefined end.

(** A field of [{ ...base, ...over }]: the one of [over] when it has the
    key ([Some]), whatever its value. *)
Definition overlay {A : Type} (over : option A) (base : A) : A :=
  match over with Some a => a | None => base end.

(** Reading one of the properties the hook reads ([id], [title],
    [revenue], ...) : an own property of an object, and [undefined] on
    every other value that is not nullish (none of these names is on
    the prototype of a string, number, boolean or array).  [props] is
    the object as parsed, each key once. *)
Fixpoint assoc (k : string) (ps : list (string * val)) : val :=
  match ps with
  | [] => Undefined
  | (k', v) :: ps' => if String.eqb k k' then v else assoc k ps'
  end.

Definition get (t : val) (k : string) : val :=
  match t with
  | Obj _ ps => assoc k ps
  | _ => Undefined
  end.

(** What the host evaluates for the hook. *)
Record Host : Type := {
  (** ToNumber on a string. *)
  StringToNumber : string -> num;
  (** ToPrimitive on an array or plain object: its [toString()]. *)
  ObjectToString : val -> string;
  (** [Date.parse]: a time value, [None] for an unrecognised string. *)
  DateParse : string -> option Z;
  (** [toISOString] of a valid time value. *)
  toISOString : Z -> string
}.

Inductive error : Type := TypeError | RangeError.

Inductive result (A : Type) : Type :=
| Ok (a : A)
| Throw (e : error).
Arguments Ok {A} a.
Arguments Throw {A} e.

Definition bind {A B : Type} (r : result A) (k : A -> result B) : result B :=
  match r with
  | Ok a => k a
  | Throw e => Throw e
  end.

(** A [Date] object: its time value, [None] for an invalid date. *)
Definition date := option Z.

Definition TimeClip (z : Z) : date :=
  if (Z.abs z <=? 8640000000000000)%Z then Some z else None.

(** ToIntegerOrInfinity, kept when finite. *)
Definition trunc (n : num) : option Z :=
  match n with
  | S754_zero _ => Some 0%Z
  | S754_finite s m (Zneg k) => Some (cond_Zopp s (Z.shiftr (Zpos m) (Zpos k)))
  | S754_finite s m e => Some (cond_Zopp s (Z.shiftl (Zpos m) e))
  | _ => None
  end.

Section WithHost.
Variable host : Host.

(** [Number(v)]. *)
Definition ToNumber (v : val) : num :=
  match v with
  | Undefined => NaN
  | Null => zero
  | Bool true => one
  | Bool false => zero
  | Num n => n
  | Str s => StringToNumber host s
  | Arr _ _ | Obj _ _ => StringToNumber host (ObjectToString host v)
  end.

(** [new Date(v)]. *)
Definition newDate (v : val) : date :=
  match v with
  | Str s => DateParse host s
  | Arr _ _ | Obj _ _ => DateParse host (ObjectToString host v)
  | _ => match trunc (ToNumber v) with
         | Some z => TimeClip z
         | None => None
         end
  end.

(** [d.toISOString()], a RangeError on an invalid date. *)
Definition isoOf (d : date) : result string :=
  match d with
  | Some z => Ok (toISOString host z)
  | None => Throw RangeError
  end.

(** [new Date(d.getTime() + ms)]. *)
Definition plus (d : date) (ms : Z) : date :=
  match d with
  | Some z => TimeClip (z + ms)
  | None => None
  end.
End WithHost.

End Js.

Notation "x <- r ;; k" := (Js.bind r (fun x => k))
(at level 61, r at next level, right associativity).

(* ================================================================== *)
(** ** The data model *)

(** A [Task] as it sits in the collection.  [revenue] and [timeTaken] are
    numbers and [createdAt] a string on every path that builds a record;
    they are [undefined] ([None]) only after an update whose patch
    carried the key with that value.  The other fields are whatever the
    raw input or the caller supplied (normalisation copies them uncast). *)
Record Task : Type := {
  id : Js.val;
  title : Js.val;
  revenue : option Js.num;
  timeTaken : option Js.num;
  priority : Js.val;
  status : Js.val;
  notes : Js.val;
  createdAt : option string;
  completedAt : Js.val
}.

(** The argument of [addTask]: [Omit<Task, "id"> & { id?: string }].  Its
    own [createdAt] and [completedAt] are overwritten by the spread in
    [addTask] and left out here. *)
Record NewTask : Type := {
  n_id : option string;
  n_title : Js.val;
  n_revenue : Js.num;
  n_timeTaken : Js.num;
  n_priority : Js.val;
  n_status : Js.val;
  n_notes : Js.val
}.

(** [Partial<Task>]: [None] is a key the patch does not have.  A key
    present with the value [undefined] is [Some Js.Undefined] where the
    field is a value, and [Some None] where it is a number or a string. *)
Record Patch : Type := {
  p_id : option Js.val;
  p_title : option Js.val;
  p_revenue : option (option Js.num);
  p_timeTaken : option (option Js.num);
  p_priority : option Js.val;
  p_status : option Js.val;
  p_notes : option Js.val;
  p_createdAt : option (option string);
  p_completedAt : option Js.val
}.

(** The state of the hook the operations act on: [tasks] and
    [lastDeleted] ([None] is [null]). *)
Record Store : Type := {
  tasks : list Task;
  lastDeleted : option Task
}.

Definition DONE : Js.val := Js.Str "Done".

Definition with_timeTaken (t : Task) (n : option Js.num) : Task :=
  {| id := id t; title := title t; revenue := revenue t; timeTaken := n;
     priority := priority t; status := status t; notes := notes t;
     createdAt := createdAt t; completedAt := completedAt t |}.

Definition with_completedAt (t : Task) (c : Js.val) : Task :=
  {| id := id t; title := title t; revenue := revenue t;
     timeTaken := timeTaken t; priority := priority t; status := status t;
     notes := notes t; createdAt := createdAt t; completedAt := c |}.

(** [{ ...t, ...patch }]. *)
Definition merge (t : Task) (patch : Patch) : Task :=
  {| id := Js.overlay (p_id patch) (id t);
     title := Js.overlay (p_title patch) (title t);
     revenue := Js.overlay (p_revenue patch) (revenue t);
     timeTaken := Js.overlay (p_timeTaken patch) (timeTaken t);
     priority := Js.overlay (p_priority patch) (priority t);
     status := Js.overlay (p_status patch) (status t);
     notes := Js.overlay (p_notes patch) (notes t);
     createdAt := Js.overlay (p_createdAt patch) (createdAt t);
     completedAt := Js.overlay (p_completedAt patch) (completedAt t) |}.

(* ================================================================== *)
(** ** Normalisation: [normalizeTasks] *)

(** [Array.prototype.map] with a callback that may throw: the first
    exception ends the traversal. *)
Fixpoint map_idx {A B : Type} (f : nat -> A -> Js.result B)
    (idx : nat) (l : list A) : Js.result (list B) :=
  match l with
  | [] => Js.Ok []
  | a :: l' =>
      b <- f idx a ;;
      bs <- map_idx f (S idx) l' ;;
      Js.Ok (b :: bs)
  end.

Section Normalize.
Variable host : Js.Host.

(** The callback of [normalizeTasks]; [now] is [Date.now()]. *)
Definition normalizeTask (now : Z) (idx : nat) (t : Js.val) : Js.result Task :=
  match t with
  | Js.Undefined | Js.Null => Js.Throw Js.TypeError
  | _ =>
      let created :=
        if Js.truthy (Js.get t "createdAt")
        then Js.newDate host (Js.get t "createdAt")
        else Js.TimeClip (now - (Z.of_nat idx + 1) * 24 * 3600 * 1000) in
      completed <-
        (if Js.truthy (Js.get t "completedAt")
         then Js.Ok (Js.get t "completedAt")
         else if Js.strict_eq (Js.get t "status") DONE
              then iso <- Js.isoOf host (Js.plus created (24 * 3600 * 1000)) ;;
                   Js.Ok (Js.Str iso)
              else Js.Ok Js.Undefined) ;;
      createdIso <- Js.isoOf host created ;;
      Js.Ok
        {| id := Js.get t "id";
           title := Js.get t "title";
           revenue :=
             Some (Js.nullish_or (Some (Js.ToNumber host (Js.get t "revenue")))
                     Js.zero);
           timeTaken :=
             Some (if Js.gt (Js.ToNumber host (Js.get t "timeTaken")) Js.zero
                   then Js.ToNumber host (Js.get t "timeTaken")
                   else Js.one);
           priority := Js.get t "priority";
           status := Js.get t "status";
           notes := Js.get t "notes";
           createdAt := Some createdIso;
           completedAt := completed |}
  end.

Definition normalizeTasks (now : Z) (input : Js.val) : Js.result (list Task) :=
  match input with
  | Js.Arr _ items => map_idx (normalizeTask now) 0 items
  | _ => Js.Ok []
  end.

End Normalize.

(** An entry is record-shaped when it is a plain object. *)
Definition record_shaped (t : Js.val) : bool :=
  match t with Js.Obj _ _ => true | _ => false end.

Definition is_array (v : Js.val) : bool :=
  match v with Js.Arr _ _ => true | _ => false end.

(* ================================================================== *)
(** ** The deduplication pass of the secondary load *)

(** [seen.has(v)]. *)
Definition has (seen : list Js.val) (v : Js.val) : bool :=
  existsb (Js.same_value_zero v) seen.

(** The [filter] of the secondary load, with the [Set] it fills threaded
    through the traversal. *)
Fixpoint dedup_from (seen : list Js.val) (prev : list Task) : list Task :=
  match prev with
  | [] => []
  | task :: rest =>
      if negb (Js.truthy (id task)) || has seen (id task)
      then dedup_from seen rest
      else task :: dedup_from (id task :: seen) rest
  end.

Definition dedupTasks (prev : list Task) : list Task := dedup_from [] prev.

(** A collection the pass has nothing to remove from, given the ids
    [seen] so far: every [id] is truthy and new. *)
Fixpoint settled (seen : list Js.val) (l : list Task) : Prop :=
  match l with
  | [] => True
  | task :: rest =>
      Js.truthy (id task) = true /\ has seen (id task) = false /\
      settled (id task :: seen) rest
  end.

(* ================================================================== *)
(** ** The store operations *)

(** [addTask].  [now] is [new Date().toISOString()]; [uuid1] and [uuid2]
    are what the first and the second call of [crypto.randomUUID()]
    return when they are made. *)
Definition addTask (now uuid1 uuid2 : string) (task : NewTask)
    (prev : list Task) : list Task :=
  let id0 := Js.nullish_or (n_id task) uuid1 in
  let exists_ := existsb (fun t => Js.strict_eq (id t) (Js.Str id0)) prev in
  let id1 := if exists_ then uuid2 else id0 in
  let timeTaken1 :=
    if Js.le (n_timeTaken task) Js.zero then Js.one else n_timeTaken task in
  let createdAt1 := now in
  let completedAt1 :=
    if Js.strict_eq (n_status task) DONE then Js.Str createdAt1
    else Js.Undefined in
  prev ++ [ {| id := Js.Str id1; title := n_title task;
               revenue := Some (n_revenue task); timeTaken := Some timeTaken1;
               priority := n_priority task; status := n_status task;
               notes := n_notes task; createdAt := Some createdAt1;
               completedAt := completedAt1 |} ].

(** The first [map] of [updateTask]. *)
Definition update_merge (now id0 : string) (patch : Patch) (t : Task) : Task :=
  if negb (Js.strict_eq (id t) (Js.Str id0)) then t
  else
    let merged := merge t patch in
    if negb (Js.strict_eq (status t) DONE)
       && Js.strict_eq (status merged) DONE
       && negb (Js.truthy (completedAt merged))
    then with_completedAt merged (Js.Str now)
    else merged.

(** The second [map] of [updateTask]. *)
Definition update_clamp (id0 : string) (patch : Patch) (t : Task) : Task :=
  if Js.strict_eq (id t) (Js.Str id0)
     && Js.le_u (Js.coalesce (Js.read (p_timeTaken patch)) (timeTaken t))
          Js.zero
  then with_timeTaken t (Some Js.one)
  else t.

Definition updateTask (now id0 : string) (patch : Patch)
    (prev : list Task) : list Task :=
  let next := map (update_merge now id0 patch) prev in
  map (update_clamp id0 patch) next.

(** [deleteTask]: [find(...) || null] goes to the undo slot, the filtered
    collection replaces the old one. *)
Definition deleteTask (id0 : string) (s : Store) : Store :=
  let target := find (fun t => Js.strict_eq (id t) (Js.Str id0)) (tasks s) in
  {| tasks := filter (fun t => negb (Js.strict_eq (id t) (Js.Str id0))) (tasks s);
     lastDeleted := target |}.

(** [undoDelete], as the closure one render made: [captured] is the
    [lastDeleted] that render saw ([useCallback] with [lastDeleted] as
    its dependency), and it is what the call tests and appends; the
    collection it appends to is the current one. *)
Definition undoDelete (captured : option Task) (s : Store) : Store :=
  match captured with
  | None => s
  | Some t => {| tasks := tasks s ++ [t]; lastDeleted := None |}
  end.

Definition clearLastDeleted (s : Store) : Store :=
  {| tasks := tasks s; lastDeleted := None |}.

(** The operations as commands. *)
Inductive Op : Type :=
| Create (now uuid1 uuid2 : string) (task : NewTask)
| Update (now id0 : string) (patch : Patch)
| Delete (id0 : string)
| UndoDelete
| ClearLastDeleted.

(** One call, made on the closures of a render that saw [captured] in
    the undo slot.  Only [undoDelete] reads from its render; the other
    operations work inside the updater of [setTasks], on the current
    state. *)
Definition call (captured : option Task) (s : Store) (o : Op) : Store :=
  match o with
  | Create now u1 u2 task =>
      {| tasks := addTask now u1 u2 task (tasks s); lastDeleted := lastDeleted s |}
  | Update now i patch =>
      {| tasks := updateTask now i patch (tasks s); lastDeleted := lastDeleted s |}
  | Delete i => deleteTask i s
  | UndoDelete => undoDelete captured s
  | ClearLastDeleted => clearLastDeleted s
  end.

(** The calls of one tick: all are made before the hook renders again,
    on the closures of the render that committed [s], and the state
    updates they queue are applied in the order of the calls. *)
Definition tick (s : Store) (ops : list Op) : Store :=
  fold_left (call (lastDeleted s)) ops s.

(** A call alone in its tick. *)
Definition step (s : Store) (o : Op) : Store := call (lastDeleted s) s o.

(** Operations called one per tick: the hook renders between any two. *)
Definition run (s : Store) (ops : list Op) : Store := fold_left step ops s.

(** Ticks, one after the other. *)
Definition session (s : Store) (ticks : list (list Op)) : Store :=
  fold_left tick ticks s.

Definition empty_store : Store := {| tasks := []; lastDeleted := None |}.

(** No two members of the collection share an [id]. *)
Definition unique_ids (l : list Task) : Prop := NoDup (map id l).

(** [id0] names no member of the collection. *)
Definition absent (id0 : string) (l : list Task) : Prop :=
  forall t, In t l -> Js.strict_eq (id t) (Js.Str id0) = false.

(* ================================================================== *)
(** ** Concrete records, for running the definitions *)

Definition sample (i : Js.val) : Task :=
  {| id := i; title := Js.Str "Call client"; revenue := Some Js.one;
     timeTaken := Some Js.one; priority := Js.Str "High";
     status := Js.Str "Todo"; notes := Js.Undefined;
     createdAt := Some "2024-01-01T00:00:00.000Z"%string;
     completedAt := Js.Undefined |}.

(** The same record once completed. *)
Definition sample_done (i : Js.val) : Task :=
  {| id := i; title := Js.Str "Call client"; revenue := Some Js.one;
     timeTaken := Some Js.one; priority := Js.Str "High";
     status := DONE; notes := Js.Undefined;
     createdAt := Some "2024-01-01T00:00:00.000Z"%string;
     completedAt := Js.Str "2024-01-05T00:00:00.000Z" |}.

Definition sample_new (i : option string) (tt : Js.num) : NewTask :=
  {| n_id := i; n_title := Js.Str "Call client"; n_revenue := Js.one;
     n_timeTaken := tt; n_priority := Js.Str "High";
     n_status := Js.Str "Todo"; n_notes := Js.Undefined |}.

(** A store with two members, "a" and "b", and an empty undo slot. *)
Definition sample_store : Store :=
  {| tasks := [sample (Js.Str "a"); sample (Js.Str "b")];
     lastDeleted := None |}.

(** [{ id: i, timeTaken: n }] and [{ status: st }]. *)
Definition patch_id_timeTaken (i : Js.val) (n : Js.num) : Patch :=
  {| p_id := Some i; p_title := None; p_revenue := None;
     p_timeTaken := Some (Some n); p_priority := None; p_status := None;
     p_notes := None; p_createdAt := None; p_completedAt := None |}.

Definition patch_status (st : Js.val) : Patch :=
  {| p_id := None; p_title := None; p_revenue := None; p_timeTaken := None;
     p_priority := None; p_status := Some st; p_notes := None;
     p_createdAt := None; p_completedAt := None |}.

(** Create a record with id "x", delete it, create another record with
    id "x", undo the deletion. *)
Definition recreate_then_undo : list Op :=
  [ Create "2024-06-01T00:00:00.000Z" "u1" "u2" (sample_new (Some "x"%string) Js.one);
    Delete "x";
    Create "2024-06-02T00:00:00.000Z" "u3" "u4" (sample_new (Some "x"%string) Js.one);
    UndoDelete ].

(** [timeTaken > 0]. *)
Definition positive_time (t : Task) : Prop :=
  Js.gt_u (timeTaken t) Js.zero = true.

(** A host that recognises no string.  It only serves to run
    [normalizeTasks] on inputs whose evaluation converts no string. *)
Definition blind_host : Js.Host :=
  {| Js.StringToNumber := fun _ => Js.NaN;
     Js.ObjectToString := fun _ => EmptyString;
     Js.DateParse := fun _ => None;
     Js.toISOString := fun _ => EmptyString |}.

(* ================================================================== *)
(** ** The two loads *)

(** What [fetch("/tasks.json")] and then [res.json()] come to.  A
    rejection (of the fetch, or of [res.json()] on a body that is not
    JSON) carries the [message] of its reason, [None] when the reason has
    none. *)
Inductive Body : Type :=
| Json (data : Js.val)
| NotJson (message : option string).

Inductive Fetched : Type :=
| Rejected (message : option string)
| Response (ok : bool) (status : nat) (body : Body).

(** The state the hook keeps: [tasks] and [lastDeleted], [loading],
    [error] ([None] is [null]) and the ref [fetchedRef]. *)
Record Hook : Type := {
  store : Store;
  loading : bool;
  error : option string;
  fetchedRef : bool
}.

(** The initial values of [useState] and [useRef]. *)
Definition initial_hook : Hook :=
  {| store := empty_store; loading := true; error := None;
     fetchedRef := false |}.

Definition setTasks (l : list Task) (h : Hook) : Hook :=
  {| store := {| tasks := l; lastDeleted := lastDeleted (store h) |};
     loading := loading h; error := error h; fetchedRef := fetchedRef h |}.

Definition setError (m : string) (h : Hook) : Hook :=
  {| store := store h; loading := loading h; error := Some m;
     fetchedRef := fetchedRef h |}.

Definition setLoading (b : bool) (h : Hook) : Hook :=
  {| store := store h; loading := b; error := error h;
     fetchedRef := fetchedRef h |}.

(** [`Failed to load tasks.json (${res.status})`]. *)
Definition failed_status (status : nat) : string :=
  String.append "Failed to load tasks.json ("
    (String.append
       (DecimalString.NilZero.string_of_uint (Nat.to_uint status)) ")").

Section Loads.
Variable host : Js.Host.
(** [generateSalesTasks] of [@/utils/seed]: the hook only calls it. *)
Variable generateSalesTasks : nat -> list Task.
(** The [message] of an error the host throws. *)
Variable message_of : Js.error -> string.

(** The [try] block of [load]: the collection it would install, or the
    [message] of what was thrown. *)
Definition load_try (now : Z) (r : Fetched) : list Task + option string :=
  match r with
  | Rejected m => inr m
  | Response ok status body =>
      if negb ok then inr (Some (failed_status status))
      else
        match body with
        | NotJson m => inr m
        | Json data =>
            match normalizeTasks host now data with
            | Js.Throw e => inr (Some (message_of e))
            | Js.Ok normalized =>
                inl (if Nat.ltb 0 (List.length normalized) then normalized
                     else generateSalesTasks 50)
            end
        end
  end.

(** [load], run to its end; [isMounted] is the variable of the effect
    invocation that started it, as it is when the load writes. *)
Definition primaryLoad (now : Z) (isMounted : bool) (r : Fetched)
    (h : Hook) : Hook :=
  let h1 :=
    match load_try now r with
    | inl finalData => if isMounted then setTasks finalData h else h
    | inr m =>
        if isMounted
        then setError (Js.nullish_or m "Failed to load tasks"%string) h
        else h
    end in
  if isMounted then setLoading false h1 else h1.

(** The updater of the secondary load, when its timer has fired: every
    early return and the ignored [catch] leave the collection alone. *)
Definition secondaryLoad (now : Z) (r : Fetched) (prev : list Task) : list Task :=
  match r with
  | Rejected _ => prev
  | Response ok _ body =>
      if negb ok then prev
      else
        match body with
        | NotJson _ => prev
        | Json data =>
            match normalizeTasks host now data with
            | Js.Throw _ => prev
            | Js.Ok _ => dedupTasks prev
            end
        end
  end.

(** The primary effect over the life of the component.  [pending] is the
    [isMounted] variable of the load in flight, [None] when no load is. *)
Record Life : Type := {
  hook : Hook;
  pending : option bool
}.

Inductive Event : Type :=
| Effect
| Cleanup
| Resolve (now : Z) (r : Fetched).

Definition life_step (l : Life) (e : Event) : Life :=
  match e with
  | Effect =>
      if fetchedRef (hook l) then l
      else {| hook := {| store := store (hook l); loading := loading (hook l);
                         error := error (hook l); fetchedRef := true |};
              pending := Some true |}
  | Cleanup =>
      {| hook := hook l; pending := option_map (fun _ => false) (pending l) |}
  | Resolve now r =>
      match pending l with
      | Some isMounted =>
          {| hook := primaryLoad now isMounted r (hook l); pending := None |}
      | None => l
      end
  end.

Definition life (l : Life) (es : list Event) : Life := fold_left life_step es l.

End Loads.

Definition initial_life : Life := {| hook := initial_hook; pending := None |}.

(* ================================================================== *)
(** ** Invariants of the store *)




(** A call that cannot bring in a [timeTaken] that is not [> 0]: a
    create with a [timeTaken] other than NaN; an update whose patch has
    no [id] and, when it has the key [timeTaken], has a number other
    than NaN under it (not [undefined]); the others always. *)
Definition keeps_time (o : Op) : Prop :=
  match o with
  | Create _ _ _ task => Js.is_nan (n_timeTaken task) = false
  | Update _ _ patch =>
      p_id patch = None /\
      forall v, p_timeTaken patch = Some v ->
                exists n, v = Some n /\ Js.is_nan n = false
  | _ => True
  end.

(** The calls of a tick all satisfy [ok] in the state they are applied
    to. *)
Fixpoint all_calls (ok : Store -> Op -> Prop) (captured : option Task)
    (s : Store) (ops : list Op) : Prop :=
  match ops with
  | [] => True
  | o :: ops' => ok s o /\ all_calls ok captured (call captured s o) ops'
  end.

(** So do the calls of every tick of a session. *)
Fixpoint all_ticks (ok : option Task -> Store -> Op -> Prop) (s : Store)
    (ticks : list (list Op)) : Prop :=
  match ticks with
  | [] => True
  | ops :: ticks' =>
      all_calls (ok (lastDeleted s)) (lastDeleted s) s ops /\
      all_ticks ok (tick s ops) ticks'
  end.

(** Every member, and the record in the undo slot, has [timeTaken > 0]. *)
Definition positive_times (s : Store) : Prop :=
  Forall positive_time (tasks s) /\
  forall t, lastDeleted s = Some t -> positive_time t.

(* ================================================================== *)
(** * Properties *)

(** ** Comparisons against zero *)

Lemma gt_zero_of_not_le (x : Js.num) :
  Js.is_nan x = false -> Js.le x Js.zero = false -> Js.gt x Js.zero = true.
Proof.
  destruct x as [s | [] | | [] m e]; simpl; intros Hn Hle;
    try reflexivity; try discriminate.
Qed.

Lemma strict_eq_Str (v : Js.val) (s : string) :
  Js.strict_eq v (Js.Str s) = true <-> v = Js.Str s.
Proof.
  split.
  - destruct v; simpl; try discriminate.
    intros H. apply String.eqb_eq in H. now subst.
  - intros ->. simpl. apply String.eqb_refl.
Qed.

(** ** [deleteTask] *)

Lemma filter_all {A : Type} (f : A -> bool) (l : list A) :
  (forall x, In x l -> f x = true) -> filter f l = l.
Proof.
  induction l as [| a l IH]; simpl; intros H; [reflexivity |].
  rewrite (H a (or_introl eq_refl)). f_equal. apply IH. intros x Hx.
  apply H. now right.
Qed.

Lemma find_none {A : Type} (f : A -> bool) (l : list A) :
  (forall x, In x l -> f x = false) -> find f l = None.
Proof.
  induction l as [| a l IH]; simpl; intros H; [reflexivity |].
  rewrite (H a (or_introl eq_refl)). apply IH. intros x Hx. apply H. now right.
Qed.

(** C1, as the code has it: deleting an [id] that names no member leaves
    the collection as it was and empties the undo slot, whatever the slot
    held before. *)
Theorem deleteTask_absent (id0 : string) (s : Store) :
  absent id0 (tasks s) ->
  tasks (deleteTask id0 s) = tasks s /\ lastDeleted (deleteTask id0 s) = None.
Proof.
  intros Habs. unfold deleteTask; simpl. split.
  - apply filter_all. intros t Ht. now rewrite (Habs t Ht).
  - apply find_none. exact Habs.
Qed.

Lemma deleteTask_absent_witness :
  absent "zz" [sample (Js.Str "b")] /\
  tasks (deleteTask "zz" {| tasks := [sample (Js.Str "b")];
                            lastDeleted := Some (sample (Js.Str "a")) |})
    = [sample (Js.Str "b")] /\
  lastDeleted (deleteTask "zz" {| tasks := [sample (Js.Str "b")];
                                  lastDeleted := Some (sample (Js.Str "a")) |})
    = None.
Proof.
  assert (H : absent "zz" [sample (Js.Str "b")]).
  { intros t [<- | []]. reflexivity. }
  split; [exact H |].
  exact (deleteTask_absent "zz"
           {| tasks := [sample (Js.Str "b")];
              lastDeleted := Some (sample (Js.Str "a")) |} H).
Defined.

(** C1 as stated fails: the undo slot held a record before the call, the
    [id] is absent, and the slot does not keep its content. *)
Lemma deleteTask_absent_keeps_slot_cex :
  absent "zz" [sample (Js.Str "b")] /\
  lastDeleted (deleteTask "zz" {| tasks := [sample (Js.Str "b")];
                                  lastDeleted := Some (sample (Js.Str "a")) |})
    <> Some (sample (Js.Str "a")).
Proof.
  split.
  - intros t [<- | []]. reflexivity.
  - simpl. discriminate.
Qed.

(** ** The deduplication pass *)

Lemma dedup_from_settled (seen : list Js.val) (l : list Task) :
  settled seen (dedup_from seen l).
Proof.
  revert seen. induction l as [| task rest IH]; intros seen; simpl; [exact I |].
  destruct (Js.truthy (id task)) eqn:Htr; simpl; [| apply IH].
  destruct (has seen (id task)) eqn:Hhas; [apply IH |].
  simpl. repeat split; auto.
Qed.

Lemma dedup_from_fixed (seen : list Js.val) (l : list Task) :
  settled seen l -> dedup_from seen l = l.
Proof.
  revert seen. induction l as [| task rest IH]; intros seen; simpl; [reflexivity |].
  intros (Htr & Hhas & Hrest). rewrite Htr, Hhas. simpl.
  f_equal. now apply IH.
Qed.

Lemma dedupTasks_idempotent (l : list Task) :
  dedupTasks (dedupTasks l) = dedupTasks l.
Proof. apply dedup_from_fixed, dedup_from_settled. Qed.

Lemma dedup_from_truthy (seen : list Js.val) (l : list Task) (t : Task) :
  In t (dedup_from seen l) -> Js.truthy (id t) = true.
Proof.
  revert seen. induction l as [| task rest IH]; intros seen; simpl; [tauto |].
  destruct (Js.truthy (id task)) eqn:Htr; simpl; [| apply IH].
  destruct (has seen (id task)); [apply IH |].
  intros [<- | Hin]; [exact Htr | exact (IH _ Hin)].
Qed.

Lemma dedup_from_keeps (seen : list Js.val) (l1 l2 : list Task) (t : Task) :
  Js.truthy (id t) = true ->
  has seen (id t) = false ->
  (forall u, In u l1 -> Js.same_value_zero (id t) (id u) = false) ->
  In t (dedup_from seen (l1 ++ t :: l2)).
Proof.
  intros Htr. revert seen.
  induction l1 as [| u l1 IH]; intros seen Hhas Hnew; simpl.
  - rewrite Htr, Hhas. simpl. now left.
  - assert (Hrest : forall v, In v l1 ->
                      Js.same_value_zero (id t) (id v) = false)
      by (intros v Hv; apply Hnew; now right).
    destruct (negb (Js.truthy (id u)) || has seen (id u)).
    + now apply IH.
    + right. apply IH; [| exact Hrest].
      unfold has in *. simpl. rewrite Hhas.
      rewrite (Hnew u (or_introl eq_refl)). reflexivity.
Qed.

(** C2, as the code has it: the pass is idempotent (once or any number of
    times gives the same collection), and it keeps every record whose
    [id] is truthy and is the [id] of no other member.  A record whose
    [id] is falsy is removed even when that [id] is unique. *)
Theorem dedupTasks_idempotent_keeps_truthy_unique (l : list Task) :
  (forall n, Nat.iter (S n) dedupTasks l = dedupTasks l) /\
  (forall i t,
      nth_error l i = Some t ->
      Js.truthy (id t) = true ->
      (forall j u, nth_error l j = Some u -> j <> i ->
                   Js.same_value_zero (id t) (id u) = false) ->
      In t (dedupTasks l)).
Proof.
  split.
  - induction n as [| n IH]; [reflexivity |].
    change (dedupTasks (Nat.iter (S n) dedupTasks l) = dedupTasks l).
    rewrite IH. apply dedupTasks_idempotent.
  - intros i t Hi Htr Huniq.
    destruct (nth_error_split l i Hi) as (l1 & l2 & -> & Hlen).
    apply dedup_from_keeps; [exact Htr | reflexivity |].
    intros u Hu. destruct (In_nth_error l1 u Hu) as [j Hj].
    apply (Huniq j).
    + rewrite nth_error_app1; [exact Hj |].
      apply nth_error_Some. now rewrite Hj.
    + assert (j < List.length l1) by (apply nth_error_Some; now rewrite Hj). lia.
Qed.

Lemma dedupTasks_idempotent_keeps_truthy_unique_witness :
  Nat.iter 3 dedupTasks [sample (Js.Str "a"); sample (Js.Str "a"); sample (Js.Str "b")]
    = dedupTasks [sample (Js.Str "a"); sample (Js.Str "a"); sample (Js.Str "b")] /\
  In (sample (Js.Str "b"))
     (dedupTasks [sample (Js.Str "a"); sample (Js.Str "a"); sample (Js.Str "b")]).
Proof.
  pose proof (dedupTasks_idempotent_keeps_truthy_unique
                [sample (Js.Str "a"); sample (Js.Str "a"); sample (Js.Str "b")])
    as [Hiter Hkeep].
  split; [exact (Hiter 2) |].
  apply (Hkeep 2 (sample (Js.Str "b"))); [reflexivity | reflexivity |].
  intros [| [| [| j]]] u Hj Hne; simpl in Hj.
  - injection Hj as <-. reflexivity.
  - injection Hj as <-. reflexivity.
  - now contradiction Hne.
  - destruct j; discriminate.
Defined.

(** C2 as stated fails: the two members have different ids, and the pass
    removes the one whose [id] is the empty string. *)
Lemma dedupTasks_removes_unique_id_cex :
  NoDup (map id [sample (Js.Str "a"); sample (Js.Str "")]) /\
  In (sample (Js.Str "")) [sample (Js.Str "a"); sample (Js.Str "")] /\
  dedupTasks [sample (Js.Str "a"); sample (Js.Str "")] = [sample (Js.Str "a")].
Proof.
  split; [| split].
  - simpl. constructor.
    + intros [H | []]. discriminate.
    + constructor; [intros [] | constructor].
  - right. now left.
  - reflexivity.
Qed.

(** C10: the pass removes every record whose [id] is falsy (missing,
    [null], the empty string, zero, NaN, [false]), duplicated or not. *)
Theorem dedupTasks_drops_falsy_ids (l : list Task) (t : Task) :
  Js.truthy (id t) = false -> ~ In t (dedupTasks l).
Proof.
  intros Hf Hin. apply dedup_from_truthy in Hin. congruence.
Qed.

Lemma dedupTasks_drops_falsy_ids_witness :
  Js.truthy (id (sample Js.Undefined)) = false /\
  ~ In (sample Js.Undefined)
       (dedupTasks [sample (Js.Str "a"); sample Js.Undefined]).
Proof.
  split; [reflexivity |].
  apply (dedupTasks_drops_falsy_ids
           [sample (Js.Str "a"); sample Js.Undefined] (sample Js.Undefined)).
  reflexivity.
Defined.

(** ** Normalisation *)

Lemma map_idx_length {A B : Type} (f : nat -> A -> Js.result B)
    (l : list A) (idx : nat) (out : list B) :
  map_idx f idx l = Js.Ok out -> List.length out = List.length l.
Proof.
  revert idx out. induction l as [| a l IH]; intros idx out; simpl.
  - intros H. injection H as <-. reflexivity.
  - destruct (f idx a) as [b | e]; simpl; [| discriminate].
    destruct (map_idx f (S idx) l) as [bs | e] eqn:Hbs; simpl; [| discriminate].
    intros H. injection H as <-. simpl. f_equal. exact (IH _ _ Hbs).
Qed.

Lemma map_idx_throws {A B : Type} (f : nat -> A -> Js.result B)
    (l : list A) (a : A) :
  In a l -> (forall i, exists e, f i a = Js.Throw e) ->
  forall idx, exists e, map_idx f idx l = Js.Throw e.
Proof.
  intros Hin Hthrow. induction l as [| b l IH]; [destruct Hin |].
  intros idx. simpl. destruct Hin as [-> | Hin].
  - destruct (Hthrow idx) as [e ->]. now exists e.
  - destruct (f idx b) as [b' | e]; simpl; [| now exists e].
    destruct (IH Hin (S idx)) as [e ->]. now exists e.
Qed.

Lemma normalizeTask_nullish (host : Js.Host) (now : Z) (idx : nat) (t : Js.val) :
  Js.nullish t = true -> normalizeTask host now idx t = Js.Throw Js.TypeError.
Proof. destruct t; simpl; try discriminate; reflexivity. Qed.

(** What the callback makes of an entry that is neither an object nor
    nullish: every property it reads is [undefined]. *)
Lemma normalizeTask_non_record (host : Js.Host) (now : Z) (idx : nat)
    (t : Js.val) (z : Z) :
  record_shaped t = false -> Js.nullish t = false ->
  Js.TimeClip (now - (Z.of_nat idx + 1) * 24 * 3600 * 1000) = Some z ->
  normalizeTask host now idx t =
  Js.Ok {| id := Js.Undefined; title := Js.Undefined; revenue := Some Js.NaN;
           timeTaken := Some Js.one; priority := Js.Undefined;
           status := Js.Undefined; notes := Js.Undefined;
           createdAt := Some (Js.toISOString host z);
           completedAt := Js.Undefined |}.
Proof.
  intros Hrec Hnul Hclip.
  destruct t; try discriminate; unfold normalizeTask; simpl;
    rewrite Hclip; reflexivity.
Qed.

(** The default of [Number(t.revenue) ?? 0] is never taken. *)
Lemma normalizeTask_revenue (host : Js.Host) (now : Z) (idx : nat)
    (t : Js.val) (task : Task) :
  normalizeTask host now idx t = Js.Ok task ->
  revenue task = Some (Js.ToNumber host (Js.get t "revenue")).
Proof.
  unfold normalizeTask.
  destruct t; try discriminate;
    repeat match goal with
           | |- context [Js.bind ?r _] => destruct r; simpl; try discriminate
           end;
    intros H; injection H as <-; reflexivity.
Qed.

(** C3, where the code departs from it: a raw record with no [revenue]
    is normalised to a record whose [revenue] is NaN, not [0]. *)
Theorem normalizeTasks_missing_revenue_is_NaN (host : Js.Host) :
  exists t,
    normalizeTasks host 1700000000000
      (Js.Arr 1 [Js.Obj 2 [("id"%string, Js.Str "a");
                           ("title"%string, Js.Str "Call client")]])
    = Js.Ok [t] /\
    revenue t = Some Js.NaN /\
    Js.strict_eq (Js.of_num (revenue t)) (Js.Num Js.zero) = false.
Proof.
  eexists. split; [reflexivity |]. split; reflexivity.
Qed.

(** C4, as the code has it: a non-array input yields the empty result;
    of an array no entry is skipped, record-shaped or not: a successful
    normalisation returns exactly one record per entry, and an entry
    that is a number, a string, a boolean or an array gets a record like
    any other (the date made up for its position being a valid one). *)
Theorem normalizeTasks_shape (host : Js.Host) (now : Z) (input : Js.val) :
  (is_array input = false -> normalizeTasks host now input = Js.Ok []) /\
  (forall a items out,
      input = Js.Arr a items ->
      normalizeTasks host now input = Js.Ok out ->
      List.length out = List.length items) /\
  (forall idx t z,
      record_shaped t = false -> Js.nullish t = false ->
      Js.TimeClip (now - (Z.of_nat idx + 1) * 24 * 3600 * 1000) = Some z ->
      exists task, normalizeTask host now idx t = Js.Ok task).
Proof.
  repeat split.
  - destruct input; simpl; try reflexivity. discriminate.
  - intros a items out -> H. simpl in H. exact (map_idx_length _ _ _ _ H).
  - intros idx t z Hrec Hnul Hclip.
    eexists. exact (normalizeTask_non_record host now idx t z Hrec Hnul Hclip).
Qed.

Lemma normalizeTasks_shape_witness :
  normalizeTasks blind_host 1700000000000 (Js.Str "oops") = Js.Ok [] /\
  (exists out,
      normalizeTasks blind_host 1700000000000
        (Js.Arr 1 [Js.Num Js.one; Js.Str "two";
                   Js.Obj 2 [("id"%string, Js.Str "a")]]) = Js.Ok out /\
      List.length out = 3) /\
  (exists task,
      normalizeTask blind_host 1700000000000 1 (Js.Str "two") = Js.Ok task).
Proof.
  split; [| split].
  - exact (proj1 (normalizeTasks_shape blind_host 1700000000000 (Js.Str "oops"))
             eq_refl).
  - eexists. split; [reflexivity |].
    exact (proj1 (proj2 (normalizeTasks_shape blind_host 1700000000000
                           (Js.Arr 1 [Js.Num Js.one; Js.Str "two";
                                      Js.Obj 2 [("id"%string, Js.Str "a")]])))
             1%positive
             [Js.Num Js.one; Js.Str "two"; Js.Obj 2 [("id"%string, Js.Str "a")]]
             _ eq_refl eq_refl).
  - exact (proj2 (proj2 (normalizeTasks_shape blind_host 1700000000000
                           Js.Undefined))
             1 (Js.Str "two") 1699827200000%Z eq_refl eq_refl eq_refl).
Defined.

(** C4 as stated fails: whatever the host, the entry [1] is not an
    object and normalisation returns a record for it. *)
Lemma normalizeTasks_keeps_non_record_cex :
  record_shaped (Js.Num Js.one) = false /\
  (forall host, exists task,
      normalizeTasks host 1700000000000 (Js.Arr 1 [Js.Num Js.one])
      = Js.Ok [task]).
Proof.
  split; [reflexivity |]. intros host. eexists. reflexivity.
Qed.

(** ** [timeTaken] across [addTask] and [updateTask] *)

(** Where the guard of [addTask] does its work: a [timeTaken] that is a
    number other than NaN comes out positive. *)
Lemma addTask_positive_time (now u1 u2 : string) (task : NewTask)
    (prev : list Task) :
  Js.is_nan (n_timeTaken task) = false ->
  Forall positive_time prev ->
  Forall positive_time (addTask now u1 u2 task prev).
Proof.
  intros Hn Hprev. unfold addTask. apply Forall_app. split; [exact Hprev |].
  constructor; [| constructor]. unfold positive_time; simpl.
  destruct (Js.le (n_timeTaken task) Js.zero) eqn:Hle.
  - reflexivity.
  - now apply gt_zero_of_not_le.
Qed.

Lemma update_merge_miss (now id0 : string) (patch : Patch) (t : Task) :
  Js.strict_eq (id t) (Js.Str id0) = false ->
  update_merge now id0 patch t = t.
Proof. intros H. unfold update_merge. now rewrite H. Qed.

Lemma update_merge_hit (now id0 : string) (patch : Patch) (t : Task) :
  Js.strict_eq (id t) (Js.Str id0) = true ->
  id (update_merge now id0 patch t) = Js.overlay (p_id patch) (id t) /\
  timeTaken (update_merge now id0 patch t)
    = Js.overlay (p_timeTaken patch) (timeTaken t).
Proof.
  intros H. unfold update_merge. rewrite H. simpl.
  destruct (_ && _); split; reflexivity.
Qed.

(** Where the second [map] of [updateTask] does its work: the patch
    leaves [id] alone and, when it has the key [timeTaken], has under it
    a number other than NaN. *)
Lemma updateTask_positive_time (now id0 : string) (patch : Patch)
    (prev : list Task) :
  p_id patch = None ->
  (forall v, p_timeTaken patch = Some v ->
             exists n, v = Some n /\ Js.is_nan n = false) ->
  Forall positive_time prev ->
  Forall positive_time (updateTask now id0 patch prev).
Proof.
  intros Hid Hn Hprev. unfold updateTask.
  rewrite map_map. apply Forall_map.
  apply (Forall_impl _ (P := positive_time)); [| exact Hprev].
  intros t Ht.
  destruct (Js.strict_eq (id t) (Js.Str id0)) eqn:Heq.
  - destruct (update_merge_hit now id0 patch t Heq) as [Hmi Hmt].
    rewrite Hid in Hmi. simpl in Hmi.
    unfold update_clamp. rewrite Hmi, Heq, Hmt. simpl.
    destruct (p_timeTaken patch) as [v |] eqn:Hp; simpl.
    + destruct (Hn v eq_refl) as (n & -> & Hnan). simpl.
      destruct (Js.le n Js.zero) eqn:Hle; [reflexivity |].
      unfold positive_time. rewrite Hmt. simpl.
      apply gt_zero_of_not_le; auto.
    + unfold positive_time in Ht.
      destruct (timeTaken t) as [n |] eqn:Hprior; [| discriminate].
      simpl. destruct (Js.le n Js.zero) eqn:Hle; [reflexivity |].
      unfold positive_time. rewrite Hmt. simpl. exact Ht.
  - rewrite (update_merge_miss _ _ _ _ Heq).
    unfold update_clamp. rewrite Heq. exact Ht.
Qed.

(** C5, where the code departs from it: a patch that also renames the
    record escapes the second [map] of [updateTask], whose test is on the
    old [id], so [timeTaken: 0] stays; and [NaN <= 0] is false, so
    [addTask] keeps a NaN, which is not [> 0]. *)
Theorem timeTaken_not_always_positive :
  (exists t,
      updateTask "2024-06-01T00:00:00.000Z" "a"
        (patch_id_timeTaken (Js.Str "b") Js.zero) [sample (Js.Str "a")] = [t] /\
      id t = Js.Str "b" /\ timeTaken t = Some Js.zero /\
      Js.gt_u (timeTaken t) Js.zero = false) /\
  (exists t,
      addTask "2024-06-01T00:00:00.000Z" "u1" "u2"
        (sample_new (Some "n"%string) Js.NaN) [] = [t] /\
      timeTaken t = Some Js.NaN /\ Js.gt_u (timeTaken t) Js.zero = false).
Proof.
  split; eexists; (split; [reflexivity |]); repeat split.
Qed.

(** ** Uniqueness of [id] *)

(** C6, where the code departs from it: [undoDelete] appends the saved
    record without the test [addTask] makes, so after the record's [id]
    was taken again the collection holds that [id] twice. *)
Theorem unique_ids_broken_by_undoDelete :
  map id (tasks (run empty_store recreate_then_undo))
    = [Js.Str "x"; Js.Str "x"] /\
  ~ unique_ids (tasks (run empty_store recreate_then_undo)).
Proof.
  split; [reflexivity |].
  unfold unique_ids. simpl. intros H.
  apply NoDup_cons_iff in H as [Hnot _]. apply Hnot. now left.
Qed.

(** ** [completedAt] across [updateTask] *)

Lemma completedAt_update_clamp (id0 : string) (patch : Patch) (t : Task) :
  completedAt (update_clamp id0 patch t) = completedAt t /\
  status (update_clamp id0 patch t) = status t.
Proof. unfold update_clamp. destruct (_ && _); split; reflexivity. Qed.

Lemma updateTask_nth (now id0 : string) (patch : Patch) (prev : list Task)
    (i : nat) (t : Task) :
  nth_error prev i = Some t ->
  nth_error (updateTask now id0 patch prev) i
    = Some (update_clamp id0 patch (update_merge now id0 patch t)).
Proof.
  intros H. unfold updateTask. rewrite !nth_error_map, H. reflexivity.
Qed.



(** ** [undoDelete] *)

(** With a render between the calls, as when each call answers its own
    click: the record deleted comes back once, at the end. *)
Lemma delete_undo_undo (id0 : string) (s : Store) (a : Task) :
  find (fun t => Js.strict_eq (id t) (Js.Str id0)) (tasks s) = Some a ->
  run s [Delete id0; UndoDelete; UndoDelete]
  = {| tasks := filter (fun t => negb (Js.strict_eq (id t) (Js.Str id0)))
                  (tasks s) ++ [a];
       lastDeleted := None |}.
Proof.
  intros Hfind. unfold run, step, call, deleteTask. simpl.
  rewrite Hfind. reflexivity.
Qed.

(** Two calls of the same closure: the record it captured is appended
    by each. *)
Lemma undoDelete_stale_twice (s : Store) (t : Task) :
  lastDeleted s = Some t ->
  tick s [UndoDelete; UndoDelete]
  = {| tasks := (tasks s ++ [t]) ++ [t]; lastDeleted := None |}.
Proof. intros H. unfold tick. simpl. rewrite H. reflexivity. Qed.

(** C8, where the code departs from it: [undoDelete] tests and appends
    the [lastDeleted] its render captured, not the current one.  After
    a delete of "a" and a render, two calls made in one tick both see
    the record and append it: it is in the collection twice.  And a call
    made in the tick of the delete itself still sees the empty slot of
    its render: nothing is restored and the slot stays full.  Only when
    the hook renders between the calls does the record come back once. *)
Theorem undoDelete_twice_in_one_tick :
  tasks (tick (deleteTask "a" sample_store) [UndoDelete; UndoDelete])
  = [sample (Js.Str "b"); sample (Js.Str "a"); sample (Js.Str "a")] /\
  tick sample_store [Delete "a"; UndoDelete]
  = {| tasks := [sample (Js.Str "b")];
       lastDeleted := Some (sample (Js.Str "a")) |} /\
  tasks (run sample_store [Delete "a"; UndoDelete; UndoDelete])
  = [sample (Js.Str "b"); sample (Js.Str "a")].
Proof. repeat split. Qed.

(** ** [addTask] and colliding ids *)

Lemma existsb_id_In (x : string) (l : list Task) :
  existsb (fun t => Js.strict_eq (id t) (Js.Str x)) l = true <->
  In (Js.Str x) (map id l).
Proof.
  rewrite existsb_exists, in_map_iff. split.
  - intros (t & Hin & Heq). exists t. apply strict_eq_Str in Heq. now split.
  - intros (t & Heq & Hin). exists t. split; [exact Hin |].
    now apply strict_eq_Str.
Qed.

Lemma NoDup_snoc {A : Type} (l : list A) (a : A) :
  NoDup l -> ~ In a l -> NoDup (l ++ [a]).
Proof.
  intros Hl Ha. apply NoDup_app; [exact Hl | |].
  - constructor; [intros [] | constructor].
  - intros b Hb [<- | []]. now apply Ha.
Qed.

(** The record [addTask] appends and the [id] it gives it. *)
Lemma addTask_appends (now u1 u2 : string) (task : NewTask) (prev : list Task) :
  exists r,
    addTask now u1 u2 task prev = prev ++ [r] /\
    id r = Js.Str
             (if existsb (fun t => Js.strict_eq (id t)
                                     (Js.Str (Js.nullish_or (n_id task) u1))) prev
              then u2 else Js.nullish_or (n_id task) u1).
Proof. eexists. split; reflexivity. Qed.

(** [addTask] keeps the ids distinct as long as the identifier drawn on
    a collision is not already taken. *)
Lemma addTask_unique_ids (now u1 u2 : string) (task : NewTask) (prev : list Task) :
  unique_ids prev ->
  ~ In (Js.Str u2) (map id prev) ->
  unique_ids (addTask now u1 u2 task prev).
Proof.
  intros Hu Hfresh.
  destruct (addTask_appends now u1 u2 task prev) as (r & -> & Hid).
  unfold unique_ids. rewrite map_app. simpl. apply NoDup_snoc; [exact Hu |].
  rewrite Hid.
  destruct (existsb _ prev) eqn:He; [exact Hfresh |].
  intros Hin. apply existsb_id_In in Hin. congruence.
Qed.

(** C9: a create whose [id] (supplied, or generated when none is
    supplied) is already an [id] of the collection is not rejected: the
    record is appended under the identifier drawn anew.  With those
    identifiers fresh (not already in the collection, which is what
    [crypto.randomUUID] is relied on for), creating two records with the
    same explicit [id] gives the second one another [id] and leaves the
    ids of the collection distinct. *)
Theorem addTask_collision_regenerates (prev : list Task) :
  (forall now u1 u2 task,
      existsb (fun t => Js.strict_eq (id t)
                          (Js.Str (Js.nullish_or (n_id task) u1))) prev = true ->
      exists r, addTask now u1 u2 task prev = prev ++ [r] /\ id r = Js.Str u2) /\
  (forall x now1 ua ub t1 now2 uc ud t2,
      n_id t1 = Some x -> n_id t2 = Some x ->
      unique_ids prev ->
      ~ In (Js.Str ub) (map id prev) ->
      ~ In (Js.Str ud) (map id (addTask now1 ua ub t1 prev)) ->
      exists r1 r2,
        addTask now2 uc ud t2 (addTask now1 ua ub t1 prev) = prev ++ [r1; r2] /\
        id r2 = Js.Str ud /\ id r2 <> Js.Str x /\
        unique_ids (prev ++ [r1; r2])).
Proof.
  split.
  - intros now u1 u2 task He.
    destruct (addTask_appends now u1 u2 task prev) as (r & Hr & Hid).
    exists r. split; [exact Hr |]. now rewrite Hid, He.
  - intros x now1 ua ub t1 now2 uc ud t2 H1 H2 Hu Hb Hd.
    pose proof (addTask_unique_ids now1 ua ub t1 prev Hu Hb) as Hu1.
    pose proof (addTask_unique_ids now2 uc ud t2 _ Hu1 Hd) as Hu2.
    destruct (addTask_appends now1 ua ub t1 prev) as (r1 & E1 & Hid1).
    rewrite E1 in *.
    destruct (addTask_appends now2 uc ud t2 (prev ++ [r1])) as (r2 & E2 & Hid2).
    rewrite E2 in *. rewrite <- app_assoc in *. simpl in *.
    rewrite H1 in Hid1. rewrite H2 in Hid2. simpl in Hid1, Hid2.
    assert (Hx : In (Js.Str x) (map id (prev ++ [r1]))).
    { rewrite map_app. apply in_or_app.
      destruct (existsb _ prev) eqn:He.
      - left. now apply existsb_id_In.
      - right. simpl. now left. }
    rewrite (proj2 (existsb_id_In x (prev ++ [r1])) Hx) in Hid2.
    exists r1, r2. repeat split; auto.
    rewrite Hid2. intros Heq. apply Hd. now rewrite Heq.
Qed.

Lemma addTask_collision_regenerates_witness :
  (exists r,
      addTask "2024-06-02T00:00:00.000Z" "u3" "u4"
        (sample_new (Some "x"%string) Js.one) [sample (Js.Str "x")]
      = [sample (Js.Str "x")] ++ [r] /\ id r = Js.Str "u4") /\
  (exists r1 r2,
      addTask "2024-06-02T00:00:00.000Z" "u3" "u4"
        (sample_new (Some "x"%string) Js.one)
        (addTask "2024-06-01T00:00:00.000Z" "u1" "u2"
           (sample_new (Some "x"%string) Js.one) [])
      = [] ++ [r1; r2] /\
      id r2 = Js.Str "u4" /\ id r2 <> Js.Str "x" /\
      unique_ids ([] ++ [r1; r2])).
Proof.
  split.
  - exact (proj1 (addTask_collision_regenerates [sample (Js.Str "x")])
             "2024-06-02T00:00:00.000Z"%string "u3"%string "u4"%string
             (sample_new (Some "x"%string) Js.one) eq_refl).
  - refine (proj2 (addTask_collision_regenerates [])
              "x"%string "2024-06-01T00:00:00.000Z"%string "u1"%string
              "u2"%string (sample_new (Some "x"%string) Js.one)
              "2024-06-02T00:00:00.000Z"%string "u3"%string "u4"%string
              (sample_new (Some "x"%string) Js.one)
              eq_refl eq_refl _ _ _).
    + constructor.
    + intros [].
    + simpl. intros [H | []]. discriminate.
Defined.

(* ================================================================== *)
(** * Further properties of [normalizeTasks] *)

Lemma map_idx_Forall {A B : Type} (f : nat -> A -> Js.result B) (P : B -> Prop)
    (l : list A) (idx : nat) (out : list B) :
  (forall i a b, f i a = Js.Ok b -> P b) ->
  map_idx f idx l = Js.Ok out -> Forall P out.
Proof.
  intros HP. revert idx out. induction l as [| a l IH]; intros idx out; simpl.
  - intros H. injection H as <-. constructor.
  - destruct (f idx a) as [b | e] eqn:Hb; simpl; [| discriminate].
    destruct (map_idx f (S idx) l) as [bs | e] eqn:Hbs; simpl; [| discriminate].
    intros H. injection H as <-. constructor; [exact (HP _ _ _ Hb) |].
    exact (IH _ _ Hbs).
Qed.

Lemma map_idx_nth {A B : Type} (f : nat -> A -> Js.result B)
    (l : list A) (idx : nat) (out : list B) (i : nat) (a : A) :
  map_idx f idx l = Js.Ok out -> nth_error l i = Some a ->
  exists b, nth_error out i = Some b /\ f (idx + i) a = Js.Ok b.
Proof.
  revert idx out i. induction l as [| x l IH]; intros idx out i; simpl.
  - intros _ H. destruct i; discriminate.
  - destruct (f idx x) as [b | e] eqn:Hb; simpl; [| discriminate].
    destruct (map_idx f (S idx) l) as [bs | e] eqn:Hbs; simpl; [| discriminate].
    intros H Hi. injection H as <-. destruct i as [| i]; simpl in *.
    + injection Hi as <-. exists b. rewrite Nat.add_0_r. now split.
    + destruct (IH _ _ _ Hbs Hi) as (b' & Hn & Hf). exists b'.
      split; [exact Hn |]. now rewrite Nat.add_succ_r.
Qed.

Ltac normalize_cases t :=
  unfold normalizeTask;
  destruct t; try discriminate;
  repeat match goal with
         | |- context [Js.bind ?r _] => destruct r eqn:?; simpl; try discriminate
         end.

Lemma normalizeTask_positive_time (host : Js.Host) (now : Z) (idx : nat)
    (t : Js.val) (task : Task) :
  normalizeTask host now idx t = Js.Ok task -> positive_time task.
Proof.
  normalize_cases t; intros H; injection H as <-;
    unfold positive_time; cbn [timeTaken];
    first [ reflexivity
          | match goal with
            | |- context [if ?c then _ else _] =>
                destruct c eqn:Hc; [exact Hc | reflexivity]
            end ].
Qed.

(** X1: every record [normalizeTasks] returns has [timeTaken > 0],
    whatever the raw [timeTaken] was (missing, negative, zero, not a
    number). *)
Theorem normalizeTasks_positive_time (host : Js.Host) (now : Z)
    (input : Js.val) (out : list Task) :
  normalizeTasks host now input = Js.Ok out -> Forall positive_time out.
Proof.
  destruct input; simpl; intros H;
    try (injection H as <-; constructor).
  apply (map_idx_Forall _ _ _ _ _ (normalizeTask_positive_time host now) H).
Qed.

Lemma normalizeTasks_positive_time_witness :
  exists out,
    normalizeTasks blind_host 1700000000000
      (Js.Arr 1 [Js.Obj 2 [("id"%string, Js.Str "a");
                           ("timeTaken"%string, Js.Num (S754_zero false))];
                 Js.Obj 3 [("id"%string, Js.Str "b")]]) = Js.Ok out /\
    Forall positive_time out.
Proof.
  eexists. split; [reflexivity |].
  apply (normalizeTasks_positive_time blind_host 1700000000000
           (Js.Arr 1 [Js.Obj 2 [("id"%string, Js.Str "a");
                                ("timeTaken"%string, Js.Num (S754_zero false))];
                      Js.Obj 3 [("id"%string, Js.Str "b")]])).
  reflexivity.
Defined.

Lemma normalizeTask_passthrough (host : Js.Host) (now : Z) (idx : nat)
    (t : Js.val) (task : Task) :
  normalizeTask host now idx t = Js.Ok task ->
  id task = Js.get t "id" /\ title task = Js.get t "title" /\
  priority task = Js.get t "priority" /\ status task = Js.get t "status" /\
  notes task = Js.get t "notes".
Proof.
  normalize_cases t; intros H; injection H as <-; repeat split.
Qed.

(** X2: a successful normalisation is entry by entry: the record at
    position [i] is the normalisation of the entry at position [i], and
    it carries that entry's [id], [title], [priority], [status] and
    [notes] as they are. *)
Theorem normalizeTasks_entrywise (host : Js.Host) (now : Z) (a : positive)
    (items : list Js.val) (out : list Task) (i : nat) (t : Js.val) :
  normalizeTasks host now (Js.Arr a items) = Js.Ok out ->
  nth_error items i = Some t ->
  exists task,
    nth_error out i = Some task /\
    normalizeTask host now i t = Js.Ok task /\
    id task = Js.get t "id" /\ title task = Js.get t "title" /\
    priority task = Js.get t "priority" /\ status task = Js.get t "status" /\
    notes task = Js.get t "notes".
Proof.
  simpl. intros H Hi.
  destruct (map_idx_nth _ _ _ _ _ _ H Hi) as (task & Hn & Hf).
  simpl in Hf. exists task. split; [exact Hn |]. split; [exact Hf |].
  exact (normalizeTask_passthrough _ _ _ _ _ Hf).
Qed.

Lemma normalizeTasks_entrywise_witness :
  exists task,
    nth_error
      (match normalizeTasks blind_host 1700000000000
               (Js.Arr 1 [Js.Obj 2 [("id"%string, Js.Str "a")];
                          Js.Obj 3 [("id"%string, Js.Str "b");
                                    ("title"%string, Js.Str "Demo")]])
       with Js.Ok out => out | Js.Throw _ => [] end) 1 = Some task /\
    id task = Js.Str "b" /\ title task = Js.Str "Demo".
Proof.
  destruct (normalizeTasks_entrywise blind_host 1700000000000 1
              [Js.Obj 2 [("id"%string, Js.Str "a")];
               Js.Obj 3 [("id"%string, Js.Str "b");
                         ("title"%string, Js.Str "Demo")]]
              _ 1 _ eq_refl eq_refl)
    as (task & Hn & _ & Hid & Htitle & _).
  exists task. split; [exact Hn |]. split; [exact Hid | exact Htitle].
Defined.

Lemma normalizeTask_createdAt (host : Js.Host) (now : Z) (idx : nat)
    (t : Js.val) (task : Task) :
  normalizeTask host now idx t = Js.Ok task ->
  Js.truthy (Js.get t "createdAt") = false ->
  createdAt task
  = Some (Js.toISOString host (now - (Z.of_nat idx + 1) * 24 * 3600 * 1000)).
Proof.
  intros H Hf. unfold normalizeTask in H.
  destruct t; try discriminate; rewrite Hf in H; cbv zeta in H;
    unfold Js.TimeClip in H;
    destruct (Z.abs _ <=? _)%Z;
    repeat match type of H with
           | context [Js.bind ?r _] => destruct r eqn:?; simpl in H
           end;
    simpl in *; try discriminate;
    injection H as <-; simpl; congruence.
Qed.

(** X3: in a successful normalisation, the entry at position [i] that
    has no [createdAt] (or a falsy one) gets the time [(i + 1)] days
    before [Date.now()], printed by [toISOString]. *)
Theorem normalizeTasks_backdates (host : Js.Host) (now : Z) (a : positive)
    (items : list Js.val) (out : list Task) (i : nat) (t : Js.val) :
  normalizeTasks host now (Js.Arr a items) = Js.Ok out ->
  nth_error items i = Some t ->
  Js.truthy (Js.get t "createdAt") = false ->
  exists task,
    nth_error out i = Some task /\
    createdAt task
    = Some (Js.toISOString host (now - (Z.of_nat i + 1) * 24 * 3600 * 1000)).
Proof.
  simpl. intros H Hi Hf.
  destruct (map_idx_nth _ _ _ _ _ _ H Hi) as (task & Hn & Hnorm).
  simpl in Hnorm. exists task. split; [exact Hn |].
  exact (normalizeTask_createdAt _ _ _ _ _ Hnorm Hf).
Qed.

Lemma normalizeTasks_backdates_witness :
  exists task,
    nth_error
      (match normalizeTasks
               {| Js.StringToNumber := fun _ => Js.NaN;
                  Js.ObjectToString := fun _ => EmptyString;
                  Js.DateParse := fun _ => None;
                  Js.toISOString := fun z => if (z =? 1699827200000)%Z
                                             then "2023-11-12T22:13:20.000Z"%string
                                             else EmptyString |}
               1700000000000
               (Js.Arr 1 [Js.Obj 2 [("id"%string, Js.Str "a")];
                          Js.Obj 3 [("id"%string, Js.Str "b")]])
       with Js.Ok out => out | Js.Throw _ => [] end) 1 = Some task /\
    createdAt task = Some "2023-11-12T22:13:20.000Z"%string.
Proof.
  exact (normalizeTasks_backdates _ 1700000000000 1
           [Js.Obj 2 [("id"%string, Js.Str "a")];
            Js.Obj 3 [("id"%string, Js.Str "b")]]
           _ 1 (Js.Obj 3 [("id"%string, Js.Str "b")])
           eq_refl eq_refl eq_refl).
Defined.

Lemma normalizeTask_bad_date (host : Js.Host) (now : Z) (idx : nat) (t : Js.val) :
  Js.nullish t = false ->
  Js.truthy (Js.get t "createdAt") = true ->
  Js.newDate host (Js.get t "createdAt") = None ->
  normalizeTask host now idx t = Js.Throw Js.RangeError.
Proof.
  intros Hn Ht Hd. unfold normalizeTask.
  destruct t; try discriminate; rewrite Ht, Hd; cbv zeta.
  destruct (Js.truthy (Js.get _ "completedAt")); [reflexivity |].
  destruct (Js.strict_eq _ _); reflexivity.
Qed.

(** X4: one entry whose [createdAt] is truthy and is not a date the host
    can read is enough for the whole normalisation to throw; no record
    is returned for the other entries. *)
Theorem normalizeTasks_bad_date_throws (host : Js.Host) (now : Z)
    (a : positive) (items : list Js.val) (t : Js.val) :
  In t items ->
  Js.nullish t = false ->
  Js.truthy (Js.get t "createdAt") = true ->
  Js.newDate host (Js.get t "createdAt") = None ->
  exists e, normalizeTasks host now (Js.Arr a items) = Js.Throw e.
Proof.
  intros Hin Hn Ht Hd. simpl. apply (map_idx_throws _ _ t Hin).
  intros i. exists Js.RangeError. now apply normalizeTask_bad_date.
Qed.

Lemma normalizeTasks_bad_date_throws_witness :
  exists e,
    normalizeTasks blind_host 1700000000000
      (Js.Arr 1 [Js.Obj 2 [("id"%string, Js.Str "a")];
                 Js.Obj 3 [("id"%string, Js.Str "b");
                           ("createdAt"%string, Js.Str "yesterday")]])
    = Js.Throw e.
Proof.
  exact (normalizeTasks_bad_date_throws blind_host 1700000000000 1
           [Js.Obj 2 [("id"%string, Js.Str "a")];
            Js.Obj 3 [("id"%string, Js.Str "b");
                      ("createdAt"%string, Js.Str "yesterday")]]
           (Js.Obj 3 [("id"%string, Js.Str "b");
                      ("createdAt"%string, Js.Str "yesterday")])
           (or_intror (or_introl eq_refl)) eq_refl eq_refl eq_refl).
Defined.

Lemma truthy_not_nullish (v : Js.val) : Js.truthy v = true -> Js.nullish v = false.
Proof. destruct v; simpl; intros H; try reflexivity; discriminate. Qed.

(** X5: what a normalised record has for [completedAt]: the raw value
    when that is truthy; otherwise nothing ([undefined]) when the status
    is not Done; and in every case something (never [undefined] or
    [null]) when the status is Done. *)
Theorem normalizeTask_completedAt (host : Js.Host) (now : Z) (idx : nat)
    (t : Js.val) (task : Task) :
  normalizeTask host now idx t = Js.Ok task ->
  (Js.truthy (Js.get t "completedAt") = true ->
   completedAt task = Js.get t "completedAt") /\
  (Js.truthy (Js.get t "completedAt") = false ->
   Js.strict_eq (status task) DONE = false ->
   completedAt task = Js.Undefined) /\
  (Js.strict_eq (status task) DONE = true ->
   Js.nullish (completedAt task) = false).
Proof.
  intros H.
  destruct (normalizeTask_passthrough _ _ _ _ _ H) as (_ & _ & _ & Hst & _).
  rewrite Hst. clear Hst. unfold normalizeTask in H.
  destruct t; try discriminate;
    destruct (Js.truthy (Js.get _ "completedAt")) eqn:Htr;
    destruct (Js.strict_eq (Js.get _ "status") DONE) eqn:Hdone;
    repeat match type of H with
           | context [Js.bind ?r _] => destruct r eqn:?; simpl in H
           end;
    simpl in *; try discriminate;
    injection H as <-; simpl;
    repeat split; intros; try discriminate; try congruence;
    try (apply truthy_not_nullish; congruence).
  match goal with
  | Hb : Js.bind ?r _ = Js.Ok _ |- _ =>
      destruct r; simpl in Hb; [injection Hb as <-; reflexivity | discriminate]
  end.
Qed.

Lemma normalizeTask_completedAt_witness :
  (exists task,
      normalizeTask blind_host 1700000000000 0
        (Js.Obj 2 [("status"%string, Js.Str "Todo");
                   ("completedAt"%string, Js.Str "2024-03-01")]) = Js.Ok task /\
      completedAt task = Js.Str "2024-03-01") /\
  (exists task,
      normalizeTask blind_host 1700000000000 0
        (Js.Obj 2 [("status"%string, Js.Str "Todo")]) = Js.Ok task /\
      completedAt task = Js.Undefined) /\
  (exists task,
      normalizeTask blind_host 1700000000000 0
        (Js.Obj 2 [("status"%string, Js.Str "Done")]) = Js.Ok task /\
      Js.nullish (completedAt task) = false).
Proof.
  split; [| split]; eexists; (split; [reflexivity |]).
  - exact (proj1 (normalizeTask_completedAt blind_host 1700000000000 0
                    (Js.Obj 2 [("status"%string, Js.Str "Todo");
                               ("completedAt"%string, Js.Str "2024-03-01")])
                    _ eq_refl) eq_refl).
  - exact (proj1 (proj2 (normalizeTask_completedAt blind_host 1700000000000 0
                           (Js.Obj 2 [("status"%string, Js.Str "Todo")])
                           _ eq_refl)) eq_refl eq_refl).
  - exact (proj2 (proj2 (normalizeTask_completedAt blind_host 1700000000000 0
                           (Js.Obj 2 [("status"%string, Js.Str "Done")])
                           _ eq_refl)) eq_refl).
Defined.

(* ================================================================== *)
(** * Further properties of the deduplication pass *)

Lemma SFeqb_refl (x : Js.num) : Js.is_nan x = false -> SFeqb x x = true.
Proof.
  destruct x as [s | [] | | [] m e]; simpl; intros H; try reflexivity;
    try discriminate; unfold SFeqb; simpl;
    rewrite Z.compare_refl, Pos.compare_cont_refl; reflexivity.
Qed.

Lemma same_value_zero_refl (v : Js.val) : Js.same_value_zero v v = true.
Proof.
  destruct v as [| | b | n | s | p items | p props]; simpl; try reflexivity.
  - now destruct b.
  - destruct n as [s | [] | | [] m e]; try reflexivity;
      apply (SFeqb_refl (S754_finite _ m e)); reflexivity.
  - apply String.eqb_refl.
  - apply Pos.eqb_refl.
  - apply Pos.eqb_refl.
Qed.

Lemma has_cons (seen : list Js.val) (x v : Js.val) :
  has (x :: seen) v = Js.same_value_zero v x || has seen v.
Proof. reflexivity. Qed.

Lemma settled_unseen (seen : list Js.val) (l : list Task) (t : Task) :
  settled seen l -> In t l -> has seen (id t) = false.
Proof.
  revert seen. induction l as [| u l IH]; intros seen Hs Hin; [destruct Hin |].
  destruct Hs as (_ & Hu & Hs). destruct Hin as [<- | Hin]; [exact Hu |].
  pose proof (IH _ Hs Hin) as H. rewrite has_cons in H.
  now apply orb_false_elim in H.
Qed.

Lemma settled_unique (seen : list Js.val) (l : list Task) :
  settled seen l -> unique_ids l.
Proof.
  unfold unique_ids. revert seen.
  induction l as [| t l IH]; intros seen Hs; simpl; [constructor |].
  destruct Hs as (_ & _ & Hs). constructor; [| exact (IH _ Hs)].
  intros Hin. apply in_map_iff in Hin as (u & Hid & Hu).
  pose proof (settled_unseen _ _ _ Hs Hu) as H. rewrite has_cons in H.
  apply orb_false_elim in H as [H _].
  rewrite Hid, same_value_zero_refl in H. discriminate.
Qed.

(** X6: after the pass no two members share an [id]. *)
Theorem dedupTasks_unique_ids (l : list Task) : unique_ids (dedupTasks l).
Proof. exact (settled_unique [] _ (dedup_from_settled [] l)). Qed.

Lemma dedup_from_represents (seen : list Js.val) (l : list Task) (t : Task) :
  In t l -> Js.truthy (id t) = true ->
  has seen (id t) = true \/
  exists u, In u (dedup_from seen l) /\ Js.same_value_zero (id t) (id u) = true.
Proof.
  revert seen. induction l as [| x l IH]; intros seen Hin Htr; [destruct Hin |].
  simpl. destruct Hin as [-> | Hin].
  - rewrite Htr. simpl. destruct (has seen (id t)) eqn:Hh; [now left |].
    right. exists t. split; [now left | apply same_value_zero_refl].
  - destruct (negb (Js.truthy (id x)) || has seen (id x)) eqn:Hx.
    + exact (IH seen Hin Htr).
    + destruct (IH (id x :: seen) Hin Htr) as [Hh | (u & Hu & Heq)].
      * rewrite has_cons in Hh. apply orb_true_iff in Hh as [Hh | Hh].
        -- right. exists x. split; [now left | exact Hh].
        -- now left.
      * right. exists u. split; [now right | exact Heq].
Qed.

(** X7: the pass loses no truthy [id]: for every record of the input
    with a truthy [id], a record with that [id] is in the result. *)
Theorem dedupTasks_keeps_every_id (l : list Task) (t : Task) :
  In t l -> Js.truthy (id t) = true ->
  exists u, In u (dedupTasks l) /\ Js.same_value_zero (id t) (id u) = true.
Proof.
  intros Hin Htr.
  destruct (dedup_from_represents [] l t Hin Htr) as [H | H]; [discriminate | exact H].
Qed.

Lemma dedupTasks_keeps_every_id_witness :
  exists u,
    In u (dedupTasks [sample (Js.Str "a"); sample_done (Js.Str "a")]) /\
    Js.same_value_zero (id (sample_done (Js.Str "a"))) (id u) = true.
Proof.
  exact (dedupTasks_keeps_every_id
           [sample (Js.Str "a"); sample_done (Js.Str "a")]
           (sample_done (Js.Str "a")) (or_intror (or_introl eq_refl)) eq_refl).
Defined.

Lemma dedup_from_incl (seen : list Js.val) (l : list Task) :
  incl (dedup_from seen l) l.
Proof.
  revert seen. induction l as [| x l IH]; intros seen; simpl; [apply incl_refl |].
  destruct (negb (Js.truthy (id x)) || has seen (id x)).
  - apply incl_tl, IH.
  - apply incl_cons; [now left | apply incl_tl, IH].
Qed.

Lemma dedup_from_app (seen : list Js.val) (l1 l2 : list Task) :
  dedup_from seen (l1 ++ l2)
  = dedup_from seen l1
    ++ dedup_from (rev (map id (dedup_from seen l1)) ++ seen) l2.
Proof.
  revert seen. induction l1 as [| x l1 IH]; intros seen; simpl; [reflexivity |].
  destruct (negb (Js.truthy (id x)) || has seen (id x)).
  - apply IH.
  - simpl. rewrite IH. f_equal. f_equal. now rewrite <- app_assoc.
Qed.

(** X8: keep-first.  What the pass makes of the first records does not
    depend on the records that follow: the result for [l1 ++ l2] starts
    with the result for [l1], and goes on with records of [l2]. *)
Theorem dedupTasks_keep_first (l1 l2 : list Task) :
  exists rest,
    dedupTasks (l1 ++ l2) = dedupTasks l1 ++ rest /\ incl rest l2.
Proof.
  unfold dedupTasks. rewrite dedup_from_app. eexists. split; [reflexivity |].
  apply dedup_from_incl.
Qed.

Lemma settled_of_distinct (seen : list Js.val) (l : list Task) :
  Forall (fun t => Js.truthy (id t) = true) l ->
  Forall (fun t => has seen (id t) = false) l ->
  ForallOrdPairs (fun t u => Js.same_value_zero (id u) (id t) = false) l ->
  settled seen l.
Proof.
  revert seen. induction l as [| t l IH]; intros seen Htr Hseen Hpairs; simpl; [exact I |].
  inversion Htr as [| ? ? Ht Htr']; subst.
  inversion Hseen as [| ? ? Hs Hseen']; subst.
  inversion Hpairs as [| ? ? Hfirst Hpairs']; subst.
  repeat split; auto. apply IH; auto.
  rewrite Forall_forall in *. intros u Hu. rewrite has_cons.
  now rewrite (Hfirst u Hu), (Hseen' u Hu).
Qed.

(** X9: on a collection whose ids are all truthy and pairwise different
    the pass changes nothing. *)
Theorem dedupTasks_noop_on_distinct (l : list Task) :
  Forall (fun t => Js.truthy (id t) = true) l ->
  ForallOrdPairs (fun t u => Js.same_value_zero (id u) (id t) = false) l ->
  dedupTasks l = l.
Proof.
  intros Htr Hpairs. apply dedup_from_fixed, settled_of_distinct; auto.
  apply Forall_forall. reflexivity.
Qed.

Lemma dedupTasks_noop_on_distinct_witness :
  dedupTasks [sample (Js.Str "a"); sample (Js.Str "b")]
  = [sample (Js.Str "a"); sample (Js.Str "b")].
Proof.
  apply (dedupTasks_noop_on_distinct [sample (Js.Str "a"); sample (Js.Str "b")]).
  - repeat constructor.
  - repeat constructor.
Defined.

(* ================================================================== *)
(** * Further properties of the store operations *)

Lemma update_clamp_miss (id0 : string) (patch : Patch) (t : Task) :
  Js.strict_eq (id t) (Js.Str id0) = false -> update_clamp id0 patch t = t.
Proof. intros H. unfold update_clamp. now rewrite H. Qed.

(** X10: an update leaves every record it does not target where and as
    it was, and changes the length of the collection in no case; with an
    [id] that names no member it changes nothing at all. *)
Theorem updateTask_touches_target_only (now id0 : string) (patch : Patch)
    (prev : list Task) :
  List.length (updateTask now id0 patch prev) = List.length prev /\
  (forall i t,
      nth_error prev i = Some t ->
      Js.strict_eq (id t) (Js.Str id0) = false ->
      nth_error (updateTask now id0 patch prev) i = Some t) /\
  (absent id0 prev -> updateTask now id0 patch prev = prev).
Proof.
  split; [| split].
  - unfold updateTask. now rewrite !length_map.
  - intros i t Hi Hmiss. rewrite (updateTask_nth _ _ _ _ _ _ Hi).
    rewrite (update_merge_miss _ _ _ _ Hmiss).
    now rewrite (update_clamp_miss _ _ _ Hmiss).
  - intros Habs. unfold updateTask. rewrite map_map.
    rewrite <- (map_id prev) at 2. apply map_ext_in. intros t Ht.
    rewrite (update_merge_miss _ _ _ _ (Habs t Ht)).
    now rewrite (update_clamp_miss _ _ _ (Habs t Ht)).
Qed.

Lemma updateTask_touches_target_only_witness :
  nth_error (updateTask "2024-06-01T00:00:00.000Z" "a" (patch_status DONE)
               [sample (Js.Str "a"); sample (Js.Str "b")]) 1
  = Some (sample (Js.Str "b")) /\
  updateTask "2024-06-01T00:00:00.000Z" "zz" (patch_status DONE)
    [sample (Js.Str "a"); sample (Js.Str "b")]
  = [sample (Js.Str "a"); sample (Js.Str "b")].
Proof.
  split.
  - exact (proj1 (proj2 (updateTask_touches_target_only
                           "2024-06-01T00:00:00.000Z" "a" (patch_status DONE)
                           [sample (Js.Str "a"); sample (Js.Str "b")]))
             1 (sample (Js.Str "b")) eq_refl eq_refl).
  - apply (proj2 (proj2 (updateTask_touches_target_only
                           "2024-06-01T00:00:00.000Z" "zz" (patch_status DONE)
                           [sample (Js.Str "a"); sample (Js.Str "b")]))).
    intros t [<- | [<- | []]]; reflexivity.
Defined.

(** X11: an update whose patch has no [completedAt] never changes a
    [completedAt] that is set (truthy), whatever it does to the status:
    moving a record away from Done does not clear it, moving it back to
    Done does not restamp it. *)
Theorem updateTask_keeps_completedAt (now id0 : string) (patch : Patch)
    (prev : list Task) (i : nat) (t : Task) :
  nth_error prev i = Some t ->
  p_completedAt patch = None ->
  Js.truthy (completedAt t) = true ->
  exists t',
    nth_error (updateTask now id0 patch prev) i = Some t' /\
    completedAt t' = completedAt t.
Proof.
  intros Hi Hnone Htr. eexists. split; [exact (updateTask_nth _ _ _ _ _ _ Hi) |].
  destruct (completedAt_update_clamp id0 patch (update_merge now id0 patch t))
    as [-> _].
  assert (Hm : completedAt (merge t patch) = completedAt t)
    by (simpl; now rewrite Hnone).
  unfold update_merge. destruct (Js.strict_eq (id t) (Js.Str id0));
    cbn [negb]; [| reflexivity].
  rewrite Hm, Htr. cbn [negb]. rewrite andb_false_r. exact Hm.
Qed.

Lemma updateTask_keeps_completedAt_witness :
  exists t',
    nth_error (updateTask "2024-06-01T00:00:00.000Z" "a"
                 (patch_status (Js.Str "Todo")) [sample_done (Js.Str "a")]) 0
    = Some t' /\
    completedAt t' = Js.Str "2024-01-05T00:00:00.000Z".
Proof.
  exact (updateTask_keeps_completedAt "2024-06-01T00:00:00.000Z" "a"
           (patch_status (Js.Str "Todo")) [sample_done (Js.Str "a")] 0
           (sample_done (Js.Str "a")) eq_refl eq_refl eq_refl).
Defined.

(** X12: a delete removes every member with that [id], keeps the other
    members, and puts in the undo slot a member that had that [id] (the
    first one), or empties the slot when there was none. *)
Theorem deleteTask_removes_all (id0 : string) (s : Store) :
  absent id0 (tasks (deleteTask id0 s)) /\
  (forall t, In t (tasks s) -> Js.strict_eq (id t) (Js.Str id0) = false ->
             In t (tasks (deleteTask id0 s))) /\
  (forall a, lastDeleted (deleteTask id0 s) = Some a ->
             In a (tasks s) /\ id a = Js.Str id0) /\
  (lastDeleted (deleteTask id0 s) = None <-> absent id0 (tasks s)).
Proof.
  unfold deleteTask; simpl. split; [| split; [| split]].
  - intros t Ht. apply filter_In in Ht as [_ Ht]. now apply negb_true_iff in Ht.
  - intros t Ht Hmiss. apply filter_In. split; [exact Ht |]. now rewrite Hmiss.
  - intros a Ha. apply find_some in Ha as [Hin Heq].
    split; [exact Hin | now apply strict_eq_Str].
  - split.
    + intros Hnone t Ht. exact (List.find_none _ _ Hnone t Ht).
    + apply find_none.
Qed.

Lemma deleteTask_removes_all_witness :
  In (sample (Js.Str "b"))
     (tasks (deleteTask "a" {| tasks := [sample (Js.Str "a"); sample (Js.Str "b")];
                               lastDeleted := None |})) /\
  (In (sample (Js.Str "a")) [sample (Js.Str "a"); sample (Js.Str "b")] /\
   id (sample (Js.Str "a")) = Js.Str "a") /\
  lastDeleted (deleteTask "zz" {| tasks := [sample (Js.Str "a")];
                                  lastDeleted := Some (sample (Js.Str "b")) |})
  = None.
Proof.
  split; [| split].
  - exact (proj1 (proj2 (deleteTask_removes_all "a"
                           {| tasks := [sample (Js.Str "a"); sample (Js.Str "b")];
                              lastDeleted := None |}))
             (sample (Js.Str "b")) (or_intror (or_introl eq_refl)) eq_refl).
  - exact (proj1 (proj2 (proj2 (deleteTask_removes_all "a"
                                  {| tasks := [sample (Js.Str "a");
                                               sample (Js.Str "b")];
                                     lastDeleted := None |})))
             (sample (Js.Str "a")) eq_refl).
  - apply (proj2 (proj2 (proj2 (deleteTask_removes_all "zz"
                                  {| tasks := [sample (Js.Str "a")];
                                     lastDeleted := Some (sample (Js.Str "b")) |})))).
    intros t [<- | []]. reflexivity.
Defined.

(** X13: the undo slot holds one record.  After deleting [a] and then
    another [id] (present or not), an [undoDelete] called once the hook
    has rendered brings back no record with [id] [a] and leaves the slot
    empty.  An [undoDelete] called in the tick of the second delete is
    the closure of the render before it: it still holds the first
    record and appends it. *)
Theorem second_delete_loses_first (a b : string) (s : Store) :
  a <> b ->
  absent a (tasks (run s [Delete a; Delete b; UndoDelete])) /\
  lastDeleted (run s [Delete a; Delete b; UndoDelete]) = None /\
  (forall ta,
      lastDeleted (deleteTask a s) = Some ta ->
      id ta = Js.Str a /\
      In ta (tasks (tick (deleteTask a s) [Delete b; UndoDelete]))).
Proof.
  intros Hab.
  change (run s [Delete a; Delete b; UndoDelete])
    with (undoDelete (lastDeleted (deleteTask b (deleteTask a s)))
            (deleteTask b (deleteTask a s))).
  split; [| split].
  - unfold undoDelete.
    destruct (lastDeleted (deleteTask b (deleteTask a s))) as [tb |] eqn:Hslot.
    + simpl tasks. intros t Ht.
      apply in_app_or in Ht as [Ht | [<- | []]].
      * apply filter_In in Ht as [Ht _]. apply filter_In in Ht as [_ Ht].
        now apply negb_true_iff in Ht.
      * simpl in Hslot. apply find_some in Hslot as [_ Hb].
        apply strict_eq_Str in Hb. rewrite Hb. simpl.
        apply String.eqb_neq. congruence.
    + intros t Ht. simpl in Ht.
      apply filter_In in Ht as [Ht _]. apply filter_In in Ht as [_ Ht].
      now apply negb_true_iff in Ht.
  - unfold undoDelete.
    destruct (lastDeleted (deleteTask b (deleteTask a s))) eqn:Hslot;
      [reflexivity | exact Hslot].
  - intros ta Hta. split.
    + simpl in Hta. apply find_some in Hta as [_ Hta].
      now apply strict_eq_Str.
    + change (tick (deleteTask a s) [Delete b; UndoDelete])
        with (undoDelete (lastDeleted (deleteTask a s))
                (deleteTask b (deleteTask a s))).
      rewrite Hta. simpl. apply in_or_app. right. now left.
Qed.

Lemma second_delete_loses_first_witness :
  absent "a"
    (tasks (run {| tasks := [sample (Js.Str "a"); sample (Js.Str "b");
                             sample (Js.Str "c")];
                   lastDeleted := None |}
              [Delete "a"; Delete "b"; UndoDelete])) /\
  lastDeleted (run {| tasks := [sample (Js.Str "a"); sample (Js.Str "b");
                                sample (Js.Str "c")];
                      lastDeleted := None |}
                 [Delete "a"; Delete "b"; UndoDelete]) = None /\
  In (sample (Js.Str "a"))
     (tasks (tick (deleteTask "a"
                     {| tasks := [sample (Js.Str "a"); sample (Js.Str "b");
                                  sample (Js.Str "c")];
                        lastDeleted := None |})
               [Delete "b"; UndoDelete])).
Proof.
  assert (Hab : "a"%string <> "b"%string) by discriminate.
  pose proof (second_delete_loses_first "a" "b"
                {| tasks := [sample (Js.Str "a"); sample (Js.Str "b");
                             sample (Js.Str "c")];
                   lastDeleted := None |} Hab) as (H1 & H2 & H3).
  split; [exact H1 |]. split; [exact H2 |].
  exact (proj2 (H3 (sample (Js.Str "a")) eq_refl)).
Defined.




Lemma filter_split_length {A : Type} (f : A -> bool) (l : list A) :
  List.length (filter f l) + List.length (filter (fun x => negb (f x)) l)
  = List.length l.
Proof.
  induction l as [| a l IH]; simpl; [reflexivity |].
  destruct (f a); simpl; lia.
Qed.

(** X15: when two members share an [id], a delete of that [id] removes
    both and an undo brings back one at most, whichever render its
    closure is from: the collection comes out shorter than it was. *)
Theorem delete_undo_drops_duplicates (id0 : string) (l1 l2 l3 : list Task)
    (t u : Task) (slot captured : option Task) :
  id t = Js.Str id0 -> id u = Js.Str id0 ->
  List.length
    (tasks (undoDelete captured (deleteTask id0
       {| tasks := l1 ++ t :: l2 ++ u :: l3; lastDeleted := slot |})))
  < List.length (l1 ++ t :: l2 ++ u :: l3).
Proof.
  intros Ht Hu.
  assert (Hmatch : 2 <= List.length
                          (filter (fun x => Js.strict_eq (id x) (Js.Str id0))
                             (l1 ++ t :: l2 ++ u :: l3))).
  { rewrite filter_app. simpl. rewrite Ht. simpl.
    rewrite String.eqb_refl. rewrite filter_app. simpl. rewrite Hu. simpl.
    rewrite String.eqb_refl. rewrite length_app. simpl. rewrite length_app.
    simpl. lia. }
  pose proof (filter_split_length
                (fun x => Js.strict_eq (id x) (Js.Str id0))
                (l1 ++ t :: l2 ++ u :: l3)) as Hsplit.
  cbv beta in Hsplit.
  remember (l1 ++ t :: l2 ++ u :: l3) as l eqn:Hl. clear Hl.
  unfold undoDelete, deleteTask. cbn [tasks lastDeleted].
  destruct captured; cbn [tasks lastDeleted].
  - rewrite length_app. simpl. lia.
  - lia.
Qed.

Lemma delete_undo_drops_duplicates_witness :
  List.length
    (tasks (undoDelete (Some (sample (Js.Str "a"))) (deleteTask "a"
       {| tasks := [] ++ sample (Js.Str "a") :: [sample (Js.Str "b")]
                      ++ sample_done (Js.Str "a") :: [];
          lastDeleted := None |})))
  < List.length ([] ++ sample (Js.Str "a") :: [sample (Js.Str "b")]
                   ++ sample_done (Js.Str "a") :: []).
Proof.
  exact (delete_undo_drops_duplicates "a" [] [sample (Js.Str "b")] []
           (sample (Js.Str "a")) (sample_done (Js.Str "a")) None
           (Some (sample (Js.Str "a"))) eq_refl eq_refl).
Defined.

(* ================================================================== *)
(** * Invariants along a session *)








Lemma positive_times_call (captured : option Task) (s : Store) (o : Op) :
  positive_times s ->
  (forall t, captured = Some t -> positive_time t) ->
  keeps_time o -> positive_times (call captured s o).
Proof.
  intros [Hall Hslot] Hcap Hok.
  destruct o as [now u1 u2 task | now i patch | i | |]; simpl in *.
  - split; [| exact Hslot]. simpl. now apply addTask_positive_time.
  - destruct Hok as [Hid Hn]. split; [| exact Hslot]. simpl.
    now apply updateTask_positive_time.
  - rewrite Forall_forall in Hall. split; simpl.
    + apply Forall_forall. intros t Ht. apply filter_In in Ht as [Ht _].
      now apply Hall.
    + intros t Ht. apply find_some in Ht as [Ht _]. now apply Hall.
  - unfold undoDelete. destruct captured as [t |].
    + split; simpl; [| intros ? H; discriminate].
      apply Forall_app. split; [exact Hall |].
      constructor; [exact (Hcap t eq_refl) | constructor].
    + now split.
  - split; [exact Hall |]. simpl. intros t H. discriminate.
Qed.

Lemma positive_times_calls (captured : option Task) (ops : list Op) (s : Store) :
  positive_times s ->
  (forall t, captured = Some t -> positive_time t) ->
  all_calls (fun _ => keeps_time) captured s ops ->
  positive_times (fold_left (call captured) ops s).
Proof.
  intros Hs Hcap. revert s Hs.
  induction ops as [| o ops IH]; intros s Hs Hok; simpl; [exact Hs |].
  destruct Hok as [Ho Hok]. apply IH; [| exact Hok].
  now apply positive_times_call.
Qed.

(** X17: [timeTaken > 0] holds for every member, and for the record in
    the undo slot, along every session, whatever calls each tick groups,
    in which no create is given NaN for [timeTaken], and no patch
    carries an [id], or the key [timeTaken] with NaN or [undefined]
    under it. *)
Theorem session_keeps_time_positive (ticks : list (list Op)) (s : Store) :
  positive_times s -> all_ticks (fun _ _ => keeps_time) s ticks ->
  positive_times (session s ticks).
Proof.
  revert s. induction ticks as [| ops ticks IH]; intros s Hs Hok; simpl;
    [exact Hs |].
  destruct Hok as [Ho Hok]. apply IH; [| exact Hok].
  unfold tick. apply positive_times_calls; [exact Hs | exact (proj2 Hs) | exact Ho].
Qed.

Lemma session_keeps_time_positive_witness :
  positive_times
    (session empty_store
       [ [ Create "2024-06-01T00:00:00.000Z" "u1" "u2"
             (sample_new (Some "x"%string) (S754_zero false)) ];
         [ Update "2024-06-03T00:00:00.000Z" "x"
             {| p_id := None; p_title := None; p_revenue := None;
                p_timeTaken := Some (Some (S754_zero true)); p_priority := None;
                p_status := None; p_notes := None; p_createdAt := None;
                p_completedAt := None |};
           Delete "x" ];
         [ UndoDelete; UndoDelete ] ]).
Proof.
  apply (session_keeps_time_positive
           [ [ Create "2024-06-01T00:00:00.000Z" "u1" "u2"
                 (sample_new (Some "x"%string) (S754_zero false)) ];
             [ Update "2024-06-03T00:00:00.000Z" "x"
                 {| p_id := None; p_title := None; p_revenue := None;
                    p_timeTaken := Some (Some (S754_zero true));
                    p_priority := None; p_status := None; p_notes := None;
                    p_createdAt := None; p_completedAt := None |};
               Delete "x" ];
             [ UndoDelete; UndoDelete ] ] empty_store).
  - split; [constructor |]. intros t H. discriminate.
  - simpl. repeat split.
    intros v H. injection H as <-. eexists. split; reflexivity.
Defined.

(* ================================================================== *)
(** * The secondary load *)

Lemma normalizeTasks_nullish_entry (host : Js.Host) (now : Z) (a : positive)
    (items : list Js.val) (t : Js.val) :
  In t items -> Js.nullish t = true ->
  exists e, normalizeTasks host now (Js.Arr a items) = Js.Throw e.
Proof.
  intros Hin Hn. simpl. apply (map_idx_throws _ _ t Hin).
  intros i. exists Js.TypeError. now apply normalizeTask_nullish.
Qed.

Lemma secondaryLoad_cases (host : Js.Host) (now : Z) (r : Fetched)
    (prev : list Task) :
  secondaryLoad host now r prev = prev \/
  secondaryLoad host now r prev = dedupTasks prev.
Proof.
  unfold secondaryLoad. destruct r as [m | ok st [data | m]]; auto.
  - destruct ok; simpl; auto. destruct (normalizeTasks host now data); auto.
  - destruct ok; auto.
Qed.

(** X18: whatever was fetched, the secondary load brings no record in:
    its result is the collection as it was or the deduplicated
    collection, and every record of the result was in the collection. *)
Theorem secondaryLoad_never_adds (host : Js.Host) (now : Z) (r : Fetched)
    (prev : list Task) :
  (secondaryLoad host now r prev = prev \/
   secondaryLoad host now r prev = dedupTasks prev) /\
  incl (secondaryLoad host now r prev) prev.
Proof.
  pose proof (secondaryLoad_cases host now r prev) as H.
  split; [exact H |].
  destruct H as [-> | ->]; [apply incl_refl | apply dedup_from_incl].
Qed.

(** X19: the fetched records are not used, but they decide whether the
    pass runs: with a [null] or [undefined] entry among them the
    collection is left as it is, duplicates included; with a body that is
    JSON but not an array the pass runs. *)
Theorem secondaryLoad_depends_on_fetched (host : Js.Host) (now : Z)
    (status : nat) (prev : list Task) :
  (forall a items t,
      In t items -> Js.nullish t = true ->
      secondaryLoad host now (Response true status (Json (Js.Arr a items))) prev
      = prev) /\
  (forall data,
      is_array data = false ->
      secondaryLoad host now (Response true status (Json data)) prev
      = dedupTasks prev).
Proof.
  split.
  - intros a items t Hin Hn. unfold secondaryLoad. cbn [negb].
    destruct (normalizeTasks_nullish_entry host now a items t Hin Hn) as [e ->].
    reflexivity.
  - intros data Hd. unfold secondaryLoad. cbn [negb].
    destruct data; try discriminate; reflexivity.
Qed.

Lemma secondaryLoad_depends_on_fetched_witness :
  secondaryLoad blind_host 1700000000000
    (Response true 200 (Json (Js.Arr 1 [Js.Obj 2 [("id"%string, Js.Str "a")];
                                        Js.Null])))
    [sample (Js.Str "a"); sample (Js.Str "a")]
  = [sample (Js.Str "a"); sample (Js.Str "a")] /\
  secondaryLoad blind_host 1700000000000
    (Response true 200 (Json (Js.Obj 1 [])))
    [sample (Js.Str "a"); sample (Js.Str "a")]
  = dedupTasks [sample (Js.Str "a"); sample (Js.Str "a")].
Proof.
  split.
  - exact (proj1 (secondaryLoad_depends_on_fetched blind_host 1700000000000 200
                    [sample (Js.Str "a"); sample (Js.Str "a")])
             1%positive [Js.Obj 2 [("id"%string, Js.Str "a")]; Js.Null] Js.Null
             (or_intror (or_introl eq_refl)) eq_refl).
  - exact (proj2 (secondaryLoad_depends_on_fetched blind_host 1700000000000 200
                    [sample (Js.Str "a"); sample (Js.Str "a")])
             (Js.Obj 1 []) eq_refl).
Defined.

(** X20: once the pass has run, later secondary loads change nothing,
    whatever they fetch. *)
Theorem secondaryLoad_stable (host : Js.Host) (now1 now2 : Z)
    (r1 r2 : Fetched) (prev : list Task) :
  secondaryLoad host now1 r1 prev = dedupTasks prev ->
  secondaryLoad host now2 r2 (secondaryLoad host now1 r1 prev)
  = secondaryLoad host now1 r1 prev.
Proof.
  intros ->.
  destruct (secondaryLoad_cases host now2 r2 (dedupTasks prev))
    as [-> | ->]; [reflexivity | apply dedupTasks_idempotent].
Qed.

Lemma secondaryLoad_stable_witness :
  secondaryLoad blind_host 1700000060000 (Response true 200 (Json (Js.Arr 1 [])))
    (secondaryLoad blind_host 1700000000000 (Response true 200 (Json (Js.Arr 1 [])))
       [sample (Js.Str "a"); sample (Js.Str "a")])
  = secondaryLoad blind_host 1700000000000 (Response true 200 (Json (Js.Arr 1 [])))
      [sample (Js.Str "a"); sample (Js.Str "a")].
Proof.
  exact (secondaryLoad_stable blind_host 1700000000000 1700000060000
           (Response true 200 (Json (Js.Arr 1 [])))
           (Response true 200 (Json (Js.Arr 1 [])))
           [sample (Js.Str "a"); sample (Js.Str "a")] eq_refl).
Defined.

(* ================================================================== *)
(** * The primary load *)

(** X21: a load that writes while its effect is still mounted always
    ends the loading phase, leaves the undo slot and the ref alone, and
    does one of two things: it installs a collection and leaves [error]
    as it was, or it sets an error message and leaves the collection as
    it was. *)
Theorem primaryLoad_mounted (host : Js.Host) (gen : nat -> list Task)
    (msg : Js.error -> string) (now : Z) (r : Fetched) (h : Hook) :
  loading (primaryLoad host gen msg now true r h) = false /\
  lastDeleted (store (primaryLoad host gen msg now true r h)) = lastDeleted (store h) /\
  fetchedRef (primaryLoad host gen msg now true r h) = fetchedRef h /\
  ((exists finalData,
       load_try host gen msg now r = inl finalData /\
       tasks (store (primaryLoad host gen msg now true r h)) = finalData /\
       error (primaryLoad host gen msg now true r h) = error h) \/
   (exists m,
       error (primaryLoad host gen msg now true r h) = Some m /\
       tasks (store (primaryLoad host gen msg now true r h)) = tasks (store h))).
Proof.
  unfold primaryLoad. destruct (load_try host gen msg now r) as [d | m]; simpl.
  - repeat split. left. exists d. repeat split.
  - repeat split. right. eexists. split; reflexivity.
Qed.

(** X22: what a successful fetch installs: the normalised records when
    there is at least one, the fifty generated records otherwise, which
    is the case of an empty array and of any JSON that is not an array. *)
Theorem primaryLoad_installs (host : Js.Host) (gen : nat -> list Task)
    (msg : Js.error -> string) (now : Z) (status : nat) (data : Js.val)
    (h : Hook) :
  (forall out,
      normalizeTasks host now data = Js.Ok out ->
      tasks (store (primaryLoad host gen msg now true (Response true status (Json data)) h))
      = match out with [] => gen 50 | _ :: _ => out end) /\
  (is_array data = false ->
   tasks (store (primaryLoad host gen msg now true (Response true status (Json data)) h))
   = gen 50).
Proof.
  split.
  - intros out Hout. unfold primaryLoad, load_try. cbn [negb]. rewrite Hout.
    destruct out; reflexivity.
  - intros Hd. unfold primaryLoad, load_try. cbn [negb].
    destruct data; try discriminate; reflexivity.
Qed.

(** X23: how a load fails.  A response that is not [ok] gives the
    message with the status; a rejection without a message gives
    ["Failed to load tasks"]; a [null] or [undefined] entry in the
    fetched array gives the message of the error thrown.  In each case
    the collection is not touched (the generated records are not
    installed either) and the loading phase ends. *)
Theorem primaryLoad_failures (host : Js.Host) (gen : nat -> list Task)
    (msg : Js.error -> string) (now : Z) (h : Hook) :
  (forall status body,
      error (primaryLoad host gen msg now true (Response false status body) h)
      = Some (failed_status status) /\
      store (primaryLoad host gen msg now true (Response false status body) h) = store h /\
      loading (primaryLoad host gen msg now true (Response false status body) h) = false) /\
  (error (primaryLoad host gen msg now true (Rejected None) h) = Some "Failed to load tasks"%string /\
   store (primaryLoad host gen msg now true (Rejected None) h) = store h) /\
  (forall status a items t,
      In t items -> Js.nullish t = true ->
      exists e,
        error (primaryLoad host gen msg now true (Response true status (Json (Js.Arr a items))) h)
        = Some (msg e) /\
        store (primaryLoad host gen msg now true (Response true status (Json (Js.Arr a items))) h)
        = store h /\
        loading (primaryLoad host gen msg now true (Response true status (Json (Js.Arr a items))) h)
        = false).
Proof.
  split; [| split].
  - intros status body. repeat split.
  - split; reflexivity.
  - intros status a items t Hin Hn.
    destruct (normalizeTasks_nullish_entry host now a items t Hin Hn) as [e He].
    exists e. unfold primaryLoad, load_try. cbn [negb]. rewrite He.
    repeat split.
Qed.

Lemma life_after_cleanup (host : Js.Host) (gen : nat -> list Task)
    (msg : Js.error -> string) (es : list Event) (l : Life) :
  fetchedRef (hook l) = true ->
  pending l <> Some true ->
  hook (life host gen msg l es) = hook l.
Proof.
  revert l. induction es as [| e es IH]; intros l Hf Hp; [reflexivity |].
  change (life host gen msg l (e :: es))
    with (life host gen msg (life_step host gen msg l e) es).
  assert (Hstep : hook (life_step host gen msg l e) = hook l /\
                  pending (life_step host gen msg l e) <> Some true).
  { destruct e as [| | now r]; simpl.
    - rewrite Hf. now split.
    - split; [reflexivity |]. destruct (pending l); simpl; intros H; discriminate H.
    - destruct (pending l) as [[|] |] eqn:Hpend; simpl.
      + now contradiction Hp.
      + split; [| intros H; discriminate H].
        unfold primaryLoad. destruct (load_try host gen msg now r); reflexivity.
      + split; [reflexivity | rewrite Hpend; intros H; discriminate H]. }
  destruct Hstep as [Hh Hp'].
  rewrite IH; [exact Hh | now rewrite Hh | exact Hp'].
Qed.

(** X24: when the cleanup of the primary effect runs before the load has
    written (as when the effect is run, cleaned up and run again), the
    load writes nothing when it resolves, and no later run of the effect
    starts another one, [fetchedRef] being set: whatever follows, the
    hook keeps the collection, the [loading] flag and the [error] it had. *)
Theorem load_cancelled_for_good (host : Js.Host) (gen : nat -> list Task)
    (msg : Js.error -> string) (es : list Event) (h : Hook) :
  fetchedRef h = false ->
  store (hook (life host gen msg {| hook := h; pending := None |} (Effect :: Cleanup :: es)))
  = store h /\
  loading (hook (life host gen msg {| hook := h; pending := None |} (Effect :: Cleanup :: es)))
  = loading h /\
  error (hook (life host gen msg {| hook := h; pending := None |} (Effect :: Cleanup :: es)))
  = error h.
Proof.
  intros Hf.
  change (life host gen msg {| hook := h; pending := None |}
            (Effect :: Cleanup :: es))
    with (life host gen msg
            (life_step host gen msg
               (life_step host gen msg {| hook := h; pending := None |} Effect)
               Cleanup) es).
  simpl life_step. rewrite Hf. simpl.
  rewrite life_after_cleanup; simpl; auto. intros H; discriminate H.
Qed.

(** X25: without a cleanup in between, the load the first run of the
    effect started is the only one, and when it resolves the loading
    phase ends; a second run of the effect changes nothing. *)
Theorem load_once (host : Js.Host) (gen : nat -> list Task)
    (msg : Js.error -> string) (now : Z) (r : Fetched) (h : Hook) :
  fetchedRef h = false ->
  loading (hook (life host gen msg {| hook := h; pending := None |}
                   [Effect; Resolve now r])) = false /\
  life host gen msg {| hook := h; pending := None |} [Effect; Effect; Resolve now r]
  = life host gen msg {| hook := h; pending := None |} [Effect; Resolve now r] /\
  life host gen msg {| hook := h; pending := None |} [Effect; Resolve now r; Effect]
  = life host gen msg {| hook := h; pending := None |} [Effect; Resolve now r].
Proof.
  intros Hf. unfold life. simpl. rewrite Hf. simpl. split; [| split].
  - unfold primaryLoad. destruct (load_try host gen msg now r); reflexivity.
  - reflexivity.
  - unfold primaryLoad. destruct (load_try host gen msg now r); reflexivity.
Qed.

Lemma primaryLoad_installs_witness :
  tasks (store (primaryLoad blind_host (fun _ => [sample (Js.Str "seed")])
                  (fun _ => "thrown"%string) 1700000000000 true
                  (Response true 200 (Json (Js.Arr 1 []))) initial_hook))
  = [sample (Js.Str "seed")] /\
  tasks (store (primaryLoad blind_host (fun _ => [sample (Js.Str "seed")])
                  (fun _ => "thrown"%string) 1700000000000 true
                  (Response true 200 (Json (Js.Str "oops"))) initial_hook))
  = [sample (Js.Str "seed")].
Proof.
  split.
  - exact (proj1 (primaryLoad_installs blind_host
                    (fun _ => [sample (Js.Str "seed")])
                    (fun _ => "thrown"%string) 1700000000000 200
                    (Js.Arr 1 []) initial_hook) [] eq_refl).
  - exact (proj2 (primaryLoad_installs blind_host
                    (fun _ => [sample (Js.Str "seed")])
                    (fun _ => "thrown"%string) 1700000000000 200
                    (Js.Str "oops") initial_hook) eq_refl).
Defined.

Lemma primaryLoad_failures_witness :
  error (primaryLoad blind_host (fun _ => [sample (Js.Str "seed")])
           (fun _ => "thrown"%string) 1700000000000 true
           (Response false 404 (NotJson None)) initial_hook)
  = Some "Failed to load tasks.json (404)"%string /\
  exists e,
    error (primaryLoad blind_host (fun _ => [sample (Js.Str "seed")])
             (fun _ => "thrown"%string) 1700000000000 true
             (Response true 200 (Json (Js.Arr 1 [Js.Null]))) initial_hook)
    = Some ((fun _ : Js.error => "thrown"%string) e) /\
    store (primaryLoad blind_host (fun _ => [sample (Js.Str "seed")])
             (fun _ => "thrown"%string) 1700000000000 true
             (Response true 200 (Json (Js.Arr 1 [Js.Null]))) initial_hook)
    = store initial_hook /\
    loading (primaryLoad blind_host (fun _ => [sample (Js.Str "seed")])
               (fun _ => "thrown"%string) 1700000000000 true
               (Response true 200 (Json (Js.Arr 1 [Js.Null]))) initial_hook)
    = false.
Proof.
  split.
  - exact (proj1 (proj1 (primaryLoad_failures blind_host
                           (fun _ => [sample (Js.Str "seed")])
                           (fun _ => "thrown"%string) 1700000000000 initial_hook)
                    404 (NotJson None))).
  - exact (proj2 (proj2 (primaryLoad_failures blind_host
                           (fun _ => [sample (Js.Str "seed")])
                           (fun _ => "thrown"%string) 1700000000000 initial_hook))
             200 1%positive [Js.Null] Js.Null (or_introl eq_refl) eq_refl).
Defined.

Lemma load_cancelled_for_good_witness :
  store (hook (life blind_host (fun _ => [sample (Js.Str "seed")])
                 (fun _ => "thrown"%string) initial_life
                 [Effect; Cleanup; Effect;
                  Resolve 1700000000000 (Response true 200 (Json (Js.Arr 1 [])))]))
  = empty_store /\
  loading (hook (life blind_host (fun _ => [sample (Js.Str "seed")])
                   (fun _ => "thrown"%string) initial_life
                   [Effect; Cleanup; Effect;
                    Resolve 1700000000000 (Response true 200 (Json (Js.Arr 1 [])))]))
  = true /\
  error (hook (life blind_host (fun _ => [sample (Js.Str "seed")])
                 (fun _ => "thrown"%string) initial_life
                 [Effect; Cleanup; Effect;
                  Resolve 1700000000000 (Response true 200 (Json (Js.Arr 1 [])))]))
  = None.
Proof.
  exact (load_cancelled_for_good blind_host (fun _ => [sample (Js.Str "seed")])
           (fun _ => "thrown"%string)
           [Effect;
            Resolve 1700000000000 (Response true 200 (Json (Js.Arr 1 [])))]
           initial_hook eq_refl).
Defined.

Lemma load_once_witness :
  loading (hook (life blind_host (fun _ => [sample (Js.Str "seed")])
                   (fun _ => "thrown"%string) initial_life
                   [Effect;
                    Resolve 1700000000000 (Response true 200 (Json (Js.Arr 1 [])))]))
  = false.
Proof.
  exact (proj1 (load_once blind_host (fun _ => [sample (Js.Str "seed")])
                  (fun _ => "thrown"%string) 1700000000000
                  (Response true 200 (Json (Js.Arr 1 []))) initial_hook eq_refl)).
Defined.
